(** * Constellation composition: the mapping engine of [server.py]

    A shallow embedding of [constellation_composition_mcp/server.py], of its
    mapping engine and of its three tools, with the properties its
    specification states about it and further properties of the code.

    Modelling conventions.
    - A Python [float] is a real number ([R]): a decimal literal denotes the
      rational it spells, [+ * /] are the exact field operations, [math.sin]
      and [math.pi] are [sin] and [PI].  Rounding to binary64 is not
      modelled; [Binary64] evaluates the centroid in binary64 for comparison.
    - A Python [str] is a [string]; [str.lower], [str.strip] and [str.title]
      are modelled on the ASCII range, which covers every string of the
      catalog.
    - The global generator of the [random] module, and the answers of the
      network, are the state of the world, which is passed explicitly.
    - A raised exception is the [Raise] result of the monad [M]. *)

From Stdlib Require Import Reals Lra Lia List String Ascii ZArith Bool.
From Stdlib Require Import Sorting.Sorted Sorting.Permutation.
From Stdlib Require Floats.PrimFloat.
From Stdlib Require Import Numbers.DecimalString.
Import ListNotations.

Open Scope string_scope.
Open Scope list_scope.
Open Scope R_scope.

(* ====================================================================== *)
(** * Python built-ins used by the source *)
(* ====================================================================== *)

(** [sub in s] on strings: [sub] occurs in [s] as a contiguous substring. *)
Fixpoint str_contains (sub s : string) : bool :=
  String.prefix sub s ||
  match s with
  | EmptyString => false
  | String _ s' => str_contains sub s'
  end.

Definition lower_ascii (c : ascii) : ascii :=
  let n := nat_of_ascii c in
  if (65 <=? n)%nat && (n <=? 90)%nat then ascii_of_nat (n + 32) else c.

(** [s.lower()] *)
Fixpoint str_lower (s : string) : string :=
  match s with
  | EmptyString => EmptyString
  | String c s' => String (lower_ascii c) (str_lower s')
  end.

(** The ASCII characters for which [str.isspace] holds. *)
Definition is_space (c : ascii) : bool :=
  let n := nat_of_ascii c in
  ((9 <=? n)%nat && (n <=? 13)%nat) || ((28 <=? n)%nat && (n <=? 32)%nat).

Fixpoint str_lstrip (s : string) : string :=
  match s with
  | EmptyString => EmptyString
  | String c s' => if is_space c then str_lstrip s' else s
  end.

Fixpoint str_rstrip (s : string) : string :=
  match s with
  | EmptyString => EmptyString
  | String c s' =>
      match str_rstrip s' with
      | EmptyString => if is_space c then EmptyString else String c EmptyString
      | r => String c r
      end
  end.

(** [s.strip()] *)
Definition str_strip (s : string) : string := str_rstrip (str_lstrip s).

(** [s.split(sep)] for a one-character separator: never the empty list. *)
Fixpoint str_split (sep : ascii) (s : string) : list string :=
  match s with
  | EmptyString => [EmptyString]
  | String c s' =>
      if Ascii.eqb c sep then EmptyString :: str_split sep s'
      else match str_split sep s' with
           | h :: t => String c h :: t
           | [] => [String c EmptyString]
           end
  end.

(** [sep.join(l)] *)
Definition str_join (sep : string) (l : list string) : string :=
  String.concat sep l.

(** [sorted(l)] on strings, by code point: insertion into a sorted list. *)
Fixpoint insert_sorted (s : string) (l : list string) : list string :=
  match l with
  | [] => [s]
  | h :: t => if String.leb s h then s :: l else h :: insert_sorted s t
  end.

Fixpoint sorted (l : list string) : list string :=
  match l with
  | [] => []
  | h :: t => insert_sorted h (sorted t)
  end.

(** [sum(l)] on floats: a left fold from [0]. *)
Definition py_sum (l : list R) : R := fold_left Rplus l 0.

(** [l[:n]] *)
Definition slice_to {A : Type} (n : nat) (l : list A) : list A := firstn n l.

(** [d.get(key, default)] on a key that may be absent. *)
Definition get {A : Type} (field : option A) (default : A) : A :=
  match field with
  | Some v => v
  | None => default
  end.

(* ====================================================================== *)
(** * Data model *)
(* ====================================================================== *)

(** One entry of [CONSTELLATIONS].  ['abbr'] is read by indexing, the other
    keys through [.get] with a default, so they may be absent. *)
Record Metadata := {
  abbr : string;
  genitive : option string;
  story : option string;
  theme : option string;
  visual_character : option string;
  brightness_profile : option string;
  star_count_visual : option Z;
  shape : option string
}.

(** A focal point [{'x': .., 'y': .., 'weight': ..}]. *)
Record FocalPoint := { x : R; y : R; weight : R }.

Record VisualFlow := {
  primary_direction : string;
  flow_type : string;
  movement_quality : string;
  rhythm : string
}.

(** The dictionary returned by [calculate_balance]; [center_of_mass] is the
    pair of its ['x'] and ['y']. *)
Record Balance := {
  balance_type : string;
  center_of_mass : R * R;
  symmetry : string;
  stability : string
}.

Record SuggestedElements := {
  subjects : list string;
  lighting : list string;
  atmosphere : list string;
  color_palette : list string
}.

Record CompositionParameters := {
  focal_points : list FocalPoint;
  visual_flow : VisualFlow;
  balance : Balance;
  spatial_distribution : string;
  mythology_themes : list string;
  suggested_elements : SuggestedElements
}.

Inductive ResponseFormat := MARKDOWN | JSON.

(** [ConstellationCompositionInput], after validation. *)
Record ConstellationCompositionInput := {
  constellation_name : string;
  canvas_width : option Z;
  canvas_height : option Z;
  include_mythology : bool;
  response_format : ResponseFormat
}.

(** The bounds [ge=512, le=4096] of the two canvas fields. *)
Definition valid_canvas (c : Z) : Prop := (512 <= c <= 4096)%Z.

(* ====================================================================== *)
(** * The catalog *)
(* ====================================================================== *)

Definition entry (a g st th vc bp : string) (n : Z) (sh : string) : Metadata :=
  {| abbr := a; genitive := Some g; story := Some st; theme := Some th;
     visual_character := Some vc; brightness_profile := Some bp;
     star_count_visual := Some n; shape := Some sh |}.

Definition Andromeda := entry "And" "Andromedae"
  "Chained princess rescued by Perseus"
  "Sacrifice, rescue, beauty in chains"
  "Linear with graceful curves, horizontal spread"
  "moderate_to_bright" 7 "elongated_linear".

Definition Aquarius := entry "Aqr" "Aquarii"
  "Water bearer pouring from celestial jar"
  "Flow, abundance, giving"
  "Cascading downward flow, dispersed"
  "moderate" 8 "dispersed_cascade".

Definition Aquila := entry "Aql" "Aquilae"
  "Eagle carrying Zeus's thunderbolts"
  "Power, divine messenger, soaring"
  "Wings spread wide, central bright star"
  "very_bright_center" 6 "symmetric_wings".

Definition Aries := entry "Ari" "Arietis"
  "Golden fleece ram"
  "Courage, sacrifice, precious treasure"
  "Compact curved form, ram's horn"
  "bright" 4 "compact_curved".

Definition Cancer := entry "Cnc" "Cancri"
  "Crab sent by Hera to distract Hercules"
  "Persistence, protective shell"
  "Compact cluster, crab body"
  "faint_with_cluster" 5 "compact_central".

Definition Canis_Major := entry "CMa" "Canis Majoris"
  "Greater hunting dog following Orion"
  "Loyalty, hunting, companionship"
  "Compact with brilliant Sirius, dynamic stance"
  "extremely_bright_star" 8 "compact_dynamic".

Definition Capricornus := entry "Cap" "Capricorni"
  "Sea-goat with fish tail"
  "Duality, earth and water, ambition"
  "Triangular form, goat's head to fish tail"
  "moderate" 7 "triangular".

Definition Cassiopeia := entry "Cas" "Cassiopeiae"
  "Vain queen bound to throne"
  "Pride, punishment, eternal vigilance"
  "Distinctive W or M shape, highly recognizable"
  "bright" 5 "w_zigzag".

Definition Centaurus := entry "Cen" "Centauri"
  "Wise centaur, teacher of heroes"
  "Wisdom, healing, mentorship"
  "Large spread, bow-wielding stance"
  "very_bright" 11 "large_complex".

Definition Cygnus := entry "Cyg" "Cygni"
  "Swan, Zeus in disguise, Northern Cross"
  "Transformation, grace, divine deception"
  "Perfect cross or swan in flight"
  "bright_cross" 6 "cross_symmetric".

Definition Gemini := entry "Gem" "Geminorum"
  "Twin brothers Castor and Pollux"
  "Brotherhood, duality, eternal bond"
  "Twin parallel figures, two bright stars"
  "two_bright_stars" 8 "parallel_twins".

Definition Leo := entry "Leo" "Leonis"
  "Nemean lion slain by Hercules"
  "Courage, royalty, invincibility"
  "Sickle for head/mane, triangle for body"
  "very_bright" 9 "sickle_triangle".

Definition Lyra := entry "Lyr" "Lyrae"
  "Orpheus's lyre"
  "Music, art, lost love"
  "Compact parallelogram, small but bright"
  "extremely_bright_star" 5 "compact_parallelogram".

Definition Orion := entry "Ori" "Orionis"
  "Great hunter with belt and sword"
  "Hunting prowess, tragic death, grandeur"
  "Hourglass with distinctive belt, large and commanding"
  "multiple_bright_stars" 10 "hourglass_belt".

Definition Pegasus := entry "Peg" "Pegasi"
  "Winged horse sprung from Medusa's blood"
  "Inspiration, flight, poetic achievement"
  "Great square with extended lines for head/legs"
  "bright_square" 9 "square_extended".

Definition Perseus := entry "Per" "Persei"
  "Hero who slew Medusa"
  "Heroism, clever strategy, reflection"
  "Curved chain from Cassiopeia, Medusa's head"
  "bright" 8 "curved_chain".

Definition Sagittarius := entry "Sgr" "Sagittarii"
  "Centaur archer aiming at Scorpius"
  "Aim, philosophy, adventure"
  "Teapot shape, pointing toward galactic center"
  "bright" 10 "teapot".

Definition Scorpius := entry "Sco" "Scorpii"
  "Scorpion that killed Orion"
  "Danger, deadly beauty, revenge"
  "Curved tail with stinger, bright red heart"
  "very_bright_red" 12 "curved_tail".

Definition Taurus := entry "Tau" "Tauri"
  "Bull form of Zeus, Pleiades sisters"
  "Strength, passion, pursuit"
  "V-shaped face, Pleiades cluster"
  "bright_with_cluster" 8 "v_shaped".

Definition Ursa_Major := entry "UMa" "Ursae Majoris"
  "Great bear, transformed Callisto, Big Dipper"
  "Transformation, eternal circling, guidance"
  "Dipper shape, circumpolar, never setting"
  "bright" 7 "dipper".

Definition Ursa_Minor := entry "UMi" "Ursae Minoris"
  "Little bear, contains North Star"
  "Guidance, steadfastness, eternal pivot"
  "Small dipper, Polaris at tail"
  "bright_pole_star" 7 "small_dipper".

Definition Virgo := entry "Vir" "Virginis"
  "Maiden of harvest, justice, or purity"
  "Harvest, innocence, justice"
  "Y-shaped figure, large sprawling"
  "very_bright" 9 "y_shaped".

(** The dictionary [CONSTELLATIONS], in insertion order. *)
Definition CONSTELLATIONS : list (string * Metadata) :=
  [ ("Andromeda", Andromeda); ("Aquarius", Aquarius); ("Aquila", Aquila);
    ("Aries", Aries); ("Cancer", Cancer); ("Canis Major", Canis_Major);
    ("Capricornus", Capricornus); ("Cassiopeia", Cassiopeia);
    ("Centaurus", Centaurus); ("Cygnus", Cygnus); ("Gemini", Gemini);
    ("Leo", Leo); ("Lyra", Lyra); ("Orion", Orion); ("Pegasus", Pegasus);
    ("Perseus", Perseus); ("Sagittarius", Sagittarius);
    ("Scorpius", Scorpius); ("Taurus", Taurus); ("Ursa Major", Ursa_Major);
    ("Ursa Minor", Ursa_Minor); ("Virgo", Virgo) ].

(** [d.keys()] *)
Definition keys {V : Type} (d : list (string * V)) : list string :=
  map fst d.

(** [d[k]] when [k in d], [None] when [k not in d]. *)
Fixpoint lookup {V : Type} (k : string) (d : list (string * V)) : option V :=
  match d with
  | [] => None
  | (k', v) :: d' => if String.eqb k k' then Some v else lookup k d'
  end.

(* ====================================================================== *)
(** * Results and exceptions *)
(* ====================================================================== *)

Inductive exn := ZeroDivisionError.

Inductive result (A : Type) :=
| Ok (a : A)
| Raise (e : exn).
Arguments Ok {A} a.
Arguments Raise {A} e.

(** [a / b] on floats raises [ZeroDivisionError] when [b] is zero. *)
Definition py_div (a b : R) : result R :=
  if Req_dec_T b 0 then Raise ZeroDivisionError else Ok (a / b).

(** Truth value of a string: it is not empty. *)
Definition truthy (s : string) : bool :=
  match s with
  | EmptyString => false
  | String _ _ => true
  end.

(* ====================================================================== *)
(** * Classifiers without side effects *)
(* ====================================================================== *)

Definition determine_visual_flow {G : Type}
    (shape : string) (geometry_data : option G) : VisualFlow :=
  if str_contains "cascade" shape || str_contains "dispersed_cascade" shape then
    {| primary_direction := "downward";
       flow_type := "cascading";
       movement_quality := "fluid, dispersing";
       rhythm := "irregular, natural flow" |}
  else if str_contains "wings" shape || str_contains "symmetric" shape then
    {| primary_direction := "horizontal";
       flow_type := "bilateral";
       movement_quality := "balanced, expansive";
       rhythm := "symmetrical" |}
  else if str_contains "curved" shape || str_contains "tail" shape then
    {| primary_direction := "curved sweep";
       flow_type := "sinuous";
       movement_quality := "dynamic, flowing";
       rhythm := "continuous curve" |}
  else if str_contains "cross" shape then
    {| primary_direction := "radial";
       flow_type := "centered";
       movement_quality := "stable, anchored";
       rhythm := "four-way symmetry" |}
  else if str_contains "linear" shape || str_contains "belt" shape then
    {| primary_direction := "horizontal";
       flow_type := "linear";
       movement_quality := "direct, purposeful";
       rhythm := "regular spacing" |}
  else if str_contains "zigzag" shape || str_contains "w_" shape then
    {| primary_direction := "alternating";
       flow_type := "zigzag";
       movement_quality := "energetic, angular";
       rhythm := "rhythmic alternation" |}
  else if str_contains "dipper" shape then
    {| primary_direction := "L-shaped";
       flow_type := "segmented";
       movement_quality := "contained then extending";
       rhythm := "bowl to handle transition" |}
  else
    {| primary_direction := "multi-directional";
       flow_type := "balanced";
       movement_quality := "stable";
       rhythm := "varied" |}.

Definition calculate_balance
    (shape : string) (focal_points : list FocalPoint) : result Balance :=
  let total_weight := py_sum (map (fun p => weight p) focal_points) in
  match py_div (py_sum (map (fun p => x p * weight p) focal_points))
               total_weight with
  | Raise e => Raise e
  | Ok center_x =>
  match py_div (py_sum (map (fun p => y p * weight p) focal_points))
               total_weight with
  | Raise e => Raise e
  | Ok center_y =>
      let balance_type :=
        if Rlt_dec (Rabs (center_x - 0.5)) 0.1 then
          if Rlt_dec (Rabs (center_y - 0.5)) 0.1 then "centered"
          else "vertically_centered"
        else if Rlt_dec (Rabs (center_y - 0.5)) 0.1 then
          "horizontally_centered"
        else "asymmetric" in
      let is_symmetric :=
        str_contains "symmetric" shape || str_contains "cross" shape
        || str_contains "square" shape in
      Ok {| balance_type := balance_type;
            center_of_mass := (center_x, center_y);
            symmetry := if is_symmetric then "symmetric" else "asymmetric";
            stability := if String.eqb balance_type "centered"
                         then "high" else "dynamic" |}
  end end.

Definition determine_spatial_distribution
    (shape : string) (star_count : Z) : string :=
  if str_contains "compact" shape then "clustered_central"
  else if str_contains "dispersed" shape || str_contains "cascade" shape then
    "scattered_wide"
  else if str_contains "linear" shape || str_contains "belt" shape then
    "linear_arrangement"
  else if (star_count <=? 5)%Z then "minimal_sparse"
  else if (star_count >=? 10)%Z then "complex_dense"
  else "moderate_distributed".

Definition extract_mythology_themes (metadata : Metadata) : list string :=
  let story := str_lower (get (story metadata) "") in
  let theme := str_lower (get (theme metadata) "") in
  let themes : list string := [] in
  let themes :=
    if truthy theme then themes ++ map str_strip (str_split ","%char theme)
    else themes in
  let themes :=
    if str_contains "rescue" story || str_contains "save" story
    then themes ++ ["heroic rescue"] else themes in
  let themes :=
    if str_contains "hunt" story || str_contains "prey" story
    then themes ++ ["the hunt"] else themes in
  let themes :=
    if str_contains "transform" story
    then themes ++ ["transformation"] else themes in
  let themes :=
    if str_contains "death" story || str_contains "kill" story
       || str_contains "slay" story
    then themes ++ ["mortality"] else themes in
  let themes :=
    if str_contains "eternal" story || str_contains "immortal" story
    then themes ++ ["eternity"] else themes in
  let themes :=
    if str_contains "love" story
    then themes ++ ["love and loss"] else themes in
  let themes :=
    if str_contains "wisdom" story || str_contains "teacher" story
    then themes ++ ["wisdom"] else themes in
  let themes :=
    if str_contains "punishment" story
    then themes ++ ["divine punishment"] else themes in
  slice_to 5 themes.

Definition generate_suggested_elements
    (metadata : Metadata) (shape brightness : string) : SuggestedElements :=
  let story := str_lower (get (story metadata) "") in
  let subjects :=
    if str_contains "hunt" story then
      ["figures in pursuit"; "dynamic poses"; "animals"; "weapons"]
    else if str_contains "rescue" story then
      ["hero and victim"; "chains or bonds"; "triumphant pose"]
    else if str_contains "music" story || str_contains "lyre" story then
      ["musical instruments"; "flowing fabric"; "contemplative pose"]
    else if str_contains "wisdom" story then
      ["scroll or book"; "teaching gesture"; "attentive students"]
    else ["primary figure"; "supporting elements"; "narrative props"] in
  let lighting :=
    if str_contains "extremely_bright" brightness then
      ["dramatic key light"; "high contrast"; "star-like highlights";
       "radiating glow"]
    else if str_contains "two_bright" brightness then
      ["dual light sources"; "balanced illumination"; "twin highlights"]
    else if str_contains "bright_cross" brightness then
      ["four-point lighting"; "symmetrical illumination";
       "centered highlight"]
    else ["even lighting"; "gentle highlights"; "soft shadows"] in
  let atmosphere :=
    if str_contains "cascade" shape then
      ["flowing mist"; "falling elements"; "vertical movement"]
    else if str_contains "curved" shape || str_contains "tail" shape then
      ["swirling smoke"; "curved lines"; "dynamic energy"]
    else if str_contains "symmetric" shape || str_contains "cross" shape then
      ["balanced composition"; "architectural elements"; "formal symmetry"]
    else ["natural environment"; "organic forms"; "irregular shapes"] in
  let theme := str_lower (get (theme metadata) "") in
  let color_palette :=
    if str_contains "water" theme || str_contains "flow" theme then
      ["blues"; "teals"; "silver"; "flowing gradients"]
    else if str_contains "fire" theme || str_contains "power" theme then
      ["reds"; "oranges"; "golds"; "warm tones"]
    else if str_contains "death" theme || str_contains "darkness" theme then
      ["deep purples"; "blacks"; "dark blues"; "somber tones"]
    else if str_contains "wisdom" theme || str_contains "healing" theme then
      ["greens"; "soft golds"; "earth tones"; "balanced hues"]
    else ["starlight whites"; "night sky blues"; "cosmic purples";
          "celestial palette"] in
  {| subjects := subjects; lighting := lighting;
     atmosphere := atmosphere; color_palette := color_palette |}.

(** [validate_constellation]: the catalog name that [v] resolves to, by name
    first and by abbreviation second, else [v] itself. *)
Definition validate_constellation (v : string) : string :=
  match find (fun name => String.eqb (str_lower v) (str_lower name))
             (keys CONSTELLATIONS) with
  | Some name => name
  | None =>
      match find (fun item =>
                    String.eqb (str_lower v) (str_lower (abbr (snd item))))
                 CONSTELLATIONS with
      | Some (name, _) => name
      | None => v
      end
  end.

(* ====================================================================== *)
(** * The world: the [random] module and the network *)
(* ====================================================================== *)

(** What the program is linked against: the global generator of the
    [random] module ([random.seed], [random.random]) and the network, which
    answers a request for an abbreviation, given the requests made so far,
    with a GeoJSON feature or with nothing. *)
Class Platform := {
  rng_state : Type;
  seed : Z -> rng_state;
  random : rng_state -> R * rng_state;
  geometry : Type;
  network : list string -> string -> option geometry
}.

(** The documented contract of [random.random]: a float in [[0.0, 1.0)]. *)
Definition random_contract (P : Platform) : Prop :=
  forall g : rng_state, 0 <= fst (random g) < 1.

Record World `{Platform} := {
  rng : rng_state;
  requests : list string
}.

(** Computations that read and write the world and may raise. *)
Definition M `{Platform} (A : Type) : Type := World -> result A * World.

Definition ret `{Platform} {A : Type} (a : A) : M A :=
  fun w => (Ok a, w).

Definition bind `{Platform} {A B : Type} (c : M A) (k : A -> M B) : M B :=
  fun w =>
    match c w with
    | (Ok a, w') => k a w'
    | (Raise e, w') => (Raise e, w')
    end.

Notation "v <- c ;; k" := (bind c (fun v => k))
  (at level 100, c at next level, right associativity).

Definition lift `{Platform} {A : Type} (r : result A) : M A :=
  fun w => (r, w).

(** [random.seed(a)] *)
Definition random_seed `{Platform} (a : Z) : M unit :=
  fun w => (Ok tt, {| rng := seed a; requests := requests w |}).

(** [random.random()] *)
Definition random_random `{Platform} : M R :=
  fun w =>
    let (r, g) := random (rng w) in
    (Ok r, {| rng := g; requests := requests w |}).

(** [for a in l: s = body(s, a)] *)
Fixpoint for_each `{Platform} {A S : Type}
    (l : list A) (body : S -> A -> M S) (s : S) : M S :=
  match l with
  | [] => ret s
  | a :: l' => s' <- body s a ;; for_each l' body s'
  end.

(** [range(n)] *)
Definition range (n : nat) : list nat := seq 0 n.

(** [fetch_constellation_data]: one request; every failure is [None]. *)
Definition fetch_constellation_data `{Platform}
    (constellation_abbr : string) : M (option geometry) :=
  fun w =>
    (Ok (network (requests w) constellation_abbr),
     {| rng := rng w; requests := requests w ++ [constellation_abbr] |}).

(* ====================================================================== *)
(** * The mapping engine *)
(* ====================================================================== *)

Definition generate_focal_points `{Platform}
    (brightness shape : string) (width height : option Z)
    : M (list FocalPoint) :=
  let points : list FocalPoint := [] in
  if str_contains "two_bright_stars" brightness then
    ret [ {| x := 0.35; y := 0.5; weight := 0.5 |};
          {| x := 0.65; y := 0.5; weight := 0.5 |} ]
  else if str_contains "extremely_bright_star" brightness then
    ret [ {| x := 0.5; y := 0.5; weight := 1.0 |};
          {| x := 0.35; y := 0.6; weight := 0.2 |};
          {| x := 0.65; y := 0.4; weight := 0.2 |} ]
  else if str_contains "bright_cross" brightness
          || str_contains "cross" shape then
    ret [ {| x := 0.5; y := 0.5; weight := 0.5 |};
          {| x := 0.5; y := 0.3; weight := 0.3 |};
          {| x := 0.3; y := 0.5; weight := 0.25 |};
          {| x := 0.7; y := 0.5; weight := 0.25 |};
          {| x := 0.5; y := 0.7; weight := 0.3 |} ]
  else if str_contains "belt" shape || str_contains "hourglass" shape then
    ret [ {| x := 0.5; y := 0.45; weight := 0.4 |};
          {| x := 0.35; y := 0.3; weight := 0.35 |};
          {| x := 0.65; y := 0.3; weight := 0.35 |};
          {| x := 0.35; y := 0.7; weight := 0.25 |};
          {| x := 0.65; y := 0.7; weight := 0.25 |} ]
  else if str_contains "w_zigzag" shape then
    ret [ {| x := 0.2; y := 0.5; weight := 0.25 |};
          {| x := 0.35; y := 0.4; weight := 0.25 |};
          {| x := 0.5; y := 0.5; weight := 0.25 |};
          {| x := 0.65; y := 0.4; weight := 0.25 |};
          {| x := 0.8; y := 0.5; weight := 0.25 |} ]
  else if str_contains "dipper" shape then
    ret [ {| x := 0.3; y := 0.45; weight := 0.25 |};
          {| x := 0.45; y := 0.45; weight := 0.25 |};
          {| x := 0.45; y := 0.6; weight := 0.25 |};
          {| x := 0.3; y := 0.6; weight := 0.25 |};
          {| x := 0.55; y := 0.5; weight := 0.2 |};
          {| x := 0.65; y := 0.45; weight := 0.2 |};
          {| x := 0.75; y := 0.4; weight := 0.2 |} ]
  else if str_contains "square" shape then
    ret [ {| x := 0.35; y := 0.35; weight := 0.3 |};
          {| x := 0.65; y := 0.35; weight := 0.3 |};
          {| x := 0.65; y := 0.65; weight := 0.3 |};
          {| x := 0.35; y := 0.65; weight := 0.3 |} ]
  else if str_contains "triangular" shape then
    ret [ {| x := 0.5; y := 0.3; weight := 0.4 |};
          {| x := 0.35; y := 0.65; weight := 0.35 |};
          {| x := 0.65; y := 0.65; weight := 0.35 |} ]
  else if str_contains "curved" shape || str_contains "tail" shape then
    let num_points := 7%nat in
    for_each (range num_points)
      (fun points i =>
         t <- lift (py_div (INR i) (INR (num_points - 1))) ;;
         let x := 0.2 + 0.6 * t in
         let y := 0.5 + 0.2 * sin (t * PI) in
         let weight := if (i <? 2)%nat then 0.4 else 0.2 in
         ret (points ++ [ {| x := x; y := y; weight := weight |} ]))
      points
  else if str_contains "dispersed" shape then
    _ <- random_seed 42 ;;
    for_each (range 6)
      (fun points i =>
         rx <- random_random ;;
         ry <- random_random ;;
         rw <- random_random ;;
         ret (points ++ [ {| x := 0.2 + rx * 0.6;
                             y := 0.2 + ry * 0.6;
                             weight := 0.2 + rw * 0.2 |} ]))
      points
  else
    ret [ {| x := 0.5; y := 0.35; weight := 0.4 |};
          {| x := 0.35; y := 0.65; weight := 0.35 |};
          {| x := 0.65; y := 0.65; weight := 0.35 |} ].

Definition map_constellation_to_composition `{Platform}
    (constellation_name : string) (metadata : Metadata)
    (geometry_data : option geometry)
    (canvas_width canvas_height : option Z)
    (include_mythology : bool) : M CompositionParameters :=
  let shape := get (shape metadata) "dispersed" in
  let brightness := get (brightness_profile metadata) "moderate" in
  focal_points <-
    generate_focal_points brightness shape canvas_width canvas_height ;;
  let visual_flow := determine_visual_flow shape geometry_data in
  balance <- lift (calculate_balance shape focal_points) ;;
  let spatial_distribution :=
    determine_spatial_distribution shape
      (get (star_count_visual metadata) 5%Z) in
  let mythology_themes :=
    if include_mythology then extract_mythology_themes metadata else [] in
  let suggested_elements :=
    generate_suggested_elements metadata shape brightness in
  ret {| focal_points := focal_points;
         visual_flow := visual_flow;
         balance := balance;
         spatial_distribution := spatial_distribution;
         mythology_themes := mythology_themes;
         suggested_elements := suggested_elements |}.

(* ====================================================================== *)
(** * The composition tool *)
(* ====================================================================== *)

(** What the tool hands to the formatter: the error text, or the value that
    [json.dumps] or [format_composition_markdown] renders. *)
Inductive Response :=
| Text (s : string)
| JsonDocument (constellation abbreviation : string)
    (width height : option Z) (composition : CompositionParameters)
| MarkdownDocument (constellation_name : string) (metadata : Metadata)
    (params : CompositionParameters).

(** [generate_constellation_composition]: the membership test returns the
    error text before [fetch_constellation_data] is awaited, so that branch
    issues no request. *)
Definition generate_constellation_composition `{Platform}
    (params : ConstellationCompositionInput) : M Response :=
  let constellation_name := constellation_name params in
  match lookup constellation_name CONSTELLATIONS with
  | None =>
      let available := str_join ", " (sorted (keys CONSTELLATIONS)) in
      ret (Text ("Error: Constellation '" ++ constellation_name
                 ++ "' not found. Available constellations: "
                 ++ available)%string)
  | Some metadata =>
      let abbr := abbr metadata in
      geometry_data <- fetch_constellation_data abbr ;;
      composition <-
        map_constellation_to_composition constellation_name metadata
          geometry_data (canvas_width params) (canvas_height params)
          (include_mythology params) ;;
      match response_format params with
      | JSON =>
          ret (JsonDocument constellation_name abbr
                 (canvas_width params) (canvas_height params) composition)
      | MARKDOWN =>
          ret (MarkdownDocument constellation_name metadata composition)
      end
  end.

(* ====================================================================== *)
(** * CPython's generator: the Mersenne Twister behind [random] *)
(* ====================================================================== *)

(** [Modules/_randommodule.c]: a 32-bit word is a [Z] reduced modulo 2^32. *)
Module MT19937.

Definition N : nat := 624.
Definition M : nat := 397.

Definition u32 (z : Z) : Z := (z mod 4294967296)%Z.

Record state := { mt : list Z; index : nat }.

Definition word (l : list Z) (i : nat) : Z := nth i l 0%Z.

Fixpoint store (l : list Z) (i : nat) (v : Z) : list Z :=
  match l, i with
  | [], _ => []
  | _ :: t, O => v :: t
  | h :: t, S i' => h :: store t i' v
  end.

Fixpoint init_genrand_from (n : nat) (mti : Z) (prev : Z) : list Z :=
  match n with
  | O => []
  | S n' =>
      let v := u32 (1812433253 * Z.lxor prev (Z.shiftr prev 30) + mti) in
      v :: init_genrand_from n' (mti + 1) v
  end.

Definition init_genrand (s : Z) : list Z :=
  u32 s :: init_genrand_from (N - 1) 1 (u32 s).

Definition wrap (mt : list Z) (i : nat) : list Z * nat :=
  if (N <=? i)%nat then (store mt 0 (word mt (N - 1)), 1%nat) else (mt, i).

Fixpoint key_loop (k : nat) (key : list Z) (mt : list Z) (i j : nat)
    : list Z * nat :=
  match k with
  | O => (mt, i)
  | S k' =>
      let p := word mt (i - 1) in
      let v := u32 (Z.lxor (word mt i)
                           (Z.lxor p (Z.shiftr p 30) * 1664525)
                    + word key j + Z.of_nat j) in
      let (mt', i') := wrap (store mt i v) (S i) in
      let j' := if (List.length key <=? S j)%nat then O else S j in
      key_loop k' key mt' i' j'
  end.

Fixpoint final_loop (k : nat) (mt : list Z) (i : nat) : list Z :=
  match k with
  | O => mt
  | S k' =>
      let p := word mt (i - 1) in
      let v := u32 (Z.lxor (word mt i)
                           (Z.lxor p (Z.shiftr p 30) * 1566083941)
                    - Z.of_nat i) in
      let (mt', i') := wrap (store mt i v) (S i) in
      final_loop k' mt' i'
  end.

Definition init_by_array (key : list Z) : state :=
  let mt0 := init_genrand 19650218 in
  let (mt1, i) := key_loop (Nat.max N (List.length key)) key mt0 1 0 in
  let mt2 := final_loop (N - 1) mt1 i in
  {| mt := store mt2 0 2147483648%Z; index := N |}.

(** The 32-bit digits of a non-negative integer, least significant first. *)
Fixpoint digits32 (fuel : nat) (a : Z) : list Z :=
  match fuel with
  | O => []
  | S f => if (a <? 4294967296)%Z then [a]
           else (a mod 4294967296)%Z :: digits32 f (a / 4294967296)%Z
  end.

(** [random.seed(a)] for an integer [a]. *)
Definition seed (a : Z) : state :=
  let n := Z.abs a in
  init_by_array (digits32 (S (Z.to_nat (Z.log2 n))) n).

Definition twist_at (mt : list Z) (kk : nat) : list Z :=
  let y := Z.lor (Z.land (word mt kk) 2147483648)
                 (Z.land (word mt ((kk + 1) mod N)) 2147483647) in
  let mag := if Z.testbit y 0 then 2567483615%Z else 0%Z in
  store mt kk (Z.lxor (Z.lxor (word mt ((kk + M) mod N)) (Z.shiftr y 1)) mag).

Definition twist (mt : list Z) : list Z :=
  fold_left twist_at (seq 0 N) mt.

Definition temper (y : Z) : Z :=
  let y := Z.lxor y (Z.shiftr y 11) in
  let y := Z.lxor y (Z.land (Z.shiftl y 7) 2636928640) in
  let y := Z.lxor y (Z.land (Z.shiftl y 15) 4022730752) in
  Z.lxor y (Z.shiftr y 18).

Definition genrand_uint32 (s : state) : Z * state :=
  let (mt', i) := if (N <=? index s)%nat then (twist (mt s), O)
                  else (mt s, index s) in
  (u32 (temper (word mt' i)), {| mt := mt'; index := S i |}).

(** The 53-bit numerator of [random.random()]. *)
Definition random53 (s : state) : Z * state :=
  let (a, s1) := genrand_uint32 s in
  let (b, s2) := genrand_uint32 s1 in
  ((Z.shiftr a 5 * 67108864 + Z.shiftr b 6)%Z, s2).

(** [random.random()]: [(a*67108864.0+b)*(1.0/9007199254740992.0)]. *)
Definition random (s : state) : R * state :=
  let (k, s') := random53 s in
  (IZR k * (1 / 9007199254740992), s').

End MT19937.

(** CPython with the network down: every fetch fails. *)
Definition CPython_offline : Platform :=
  {| rng_state := MT19937.state;
     seed := MT19937.seed;
     random := MT19937.random;
     geometry := string;
     network := fun _ _ => None |}.

(** A world of [CPython_offline]: the generator seeded with [a], no request
    made yet. *)
Definition fresh_world (a : Z) : @World CPython_offline :=
  @Build_World CPython_offline (MT19937.seed a) [].

(* ====================================================================== *)
(** * Notions of the specification *)
(* ====================================================================== *)

(** The sum of a list of reals, written as in the specification. *)
Fixpoint sigma (l : list R) : R :=
  match l with
  | [] => 0
  | a :: l' => a + sigma l'
  end.

(** The weighted average of a coordinate over focal points:
    the sum of [coord * weight] divided by the sum of [weight]. *)
Definition weighted_average
    (coord : FocalPoint -> R) (points : list FocalPoint) : R :=
  sigma (map (fun p => coord p * weight p) points)
  / sigma (map (fun p => weight p) points).

(** Point [i] of the parametric sweep of rule 9: [t = i/6],
    [x = 0.2 + 0.6 t], [y = 0.5 + 0.2 sin (t PI)], and the weight 0.4 for
    the first two points, 0.2 after them. *)
Definition sweep_point (i : nat) : FocalPoint :=
  {| x := 0.2 + 0.6 * (INR i / 6);
     y := 0.5 + 0.2 * sin (INR i / 6 * PI);
     weight := if (i <? 2)%nat then 0.4 else 0.2 |}.

(** A focal point lies on the normalised canvas and has a positive weight. *)
Definition well_formed (p : FocalPoint) : Prop :=
  0 <= x p <= 1 /\ 0 <= y p <= 1 /\ 0 < weight p.

(** [v] equals, case-insensitively, the name or the abbreviation of some
    record of the catalog. *)
Definition resolves (v : string) : bool :=
  existsb
    (fun item =>
       String.eqb (str_lower v) (str_lower (fst item))
       || String.eqb (str_lower v) (str_lower (abbr (snd item))))
    CONSTELLATIONS.

(** The text of the not-found error for [name]. *)
Definition not_found_text (name : string) (names : list string) : string :=
  ("Error: Constellation '" ++ name
   ++ "' not found. Available constellations: "
   ++ str_join ", " names)%string.

(** Lexicographic order on names by code point. *)
Definition name_le (a b : string) : Prop := String.leb a b = true.

(** Rules 1 to 6 of the focal-point classification, the ones listed before
    the "square" rule: one of them matches. *)
Definition earlier_rule_matches (brightness shape : string) : bool :=
  str_contains "two_bright_stars" brightness
  || str_contains "extremely_bright_star" brightness
  || (str_contains "bright_cross" brightness || str_contains "cross" shape)
  || (str_contains "belt" shape || str_contains "hourglass" shape)
  || str_contains "w_zigzag" shape
  || str_contains "dipper" shape.

(** The composition that [map_constellation_to_composition] assembles once
    the focal points and the balance are known. *)
Definition assemble `{Platform}
    (metadata : Metadata) (geometry_data : option geometry)
    (include_mythology : bool) (points : list FocalPoint) (b : Balance)
    : CompositionParameters :=
  let shape := get (shape metadata) "dispersed" in
  let brightness := get (brightness_profile metadata) "moderate" in
  {| focal_points := points;
     visual_flow := determine_visual_flow shape geometry_data;
     balance := b;
     spatial_distribution :=
       determine_spatial_distribution shape
         (get (star_count_visual metadata) 5%Z);
     mythology_themes :=
       if include_mythology then extract_mythology_themes metadata else [];
     suggested_elements :=
       generate_suggested_elements metadata shape brightness |}.

(** Two worlds whose generators are in the same state. *)
Definition same_rng `{Platform} (w1 w2 : World) : Prop := rng w1 = rng w2.

(** The theme extractor finds at least one theme in a catalog entry. *)
Definition has_themes (item : string * Metadata) : bool :=
  match extract_mythology_themes (snd item) with
  | [] => false
  | _ :: _ => true
  end.

(* ====================================================================== *)
(** * The centroid in binary64 *)
(* ====================================================================== *)

(** The centroid of [calculate_balance] in IEEE 754 binary64, the arithmetic
    of a Python [float]: the same left-fold sums and the same quotients,
    with every operation rounded to nearest.  It evaluates in the kernel and
    serves to compare the real-number model with the interpreter on
    concrete focal points. *)
Module Binary64.
Import PrimFloat.
#[local] Set Warnings "-inexact-float".

Record FocalPoint := { x : float; y : float; weight : float }.

Definition py_sum (l : list float) : float := fold_left add l 0%float.

Definition center_of_mass (focal_points : list FocalPoint) : float * float :=
  let total_weight := py_sum (map (fun p => weight p) focal_points) in
  (div (py_sum (map (fun p => mul (x p) (weight p)) focal_points))
       total_weight,
   div (py_sum (map (fun p => mul (y p) (weight p)) focal_points))
       total_weight).

(** The focal points of the "two_bright_stars" rule. *)
Definition two_bright_stars : list FocalPoint :=
  [ {| x := 0.35; y := 0.5; weight := 0.5 |};
    {| x := 0.65; y := 0.5; weight := 0.5 |} ]%float.

(** The centre of the canvas. *)
Definition canvas_center : float * float := (0.5, 0.5)%float.

End Binary64.

(* ====================================================================== *)
(** * Search and listing *)
(* ====================================================================== *)

(** The line feed of the markdown templates. *)
Definition newline : string := String (ascii_of_nat 10) EmptyString.

(** [s.replace(old, new)] for one-character [old] and [new]. *)
Fixpoint str_replace (old new : ascii) (s : string) : string :=
  match s with
  | EmptyString => EmptyString
  | String c s' =>
      String (if Ascii.eqb c old then new else c) (str_replace old new s')
  end.

Definition is_upper (c : ascii) : bool :=
  let n := nat_of_ascii c in (65 <=? n)%nat && (n <=? 90)%nat.

Definition is_lower (c : ascii) : bool :=
  let n := nat_of_ascii c in (97 <=? n)%nat && (n <=? 122)%nat.

Definition upper_ascii (c : ascii) : ascii :=
  if is_lower c then ascii_of_nat (nat_of_ascii c - 32) else c.

(** [s.title()] on the ASCII range: a letter that follows a letter is
    lower-cased, every other letter is upper-cased. *)
Fixpoint title_from (previous_is_cased : bool) (s : string) : string :=
  match s with
  | EmptyString => EmptyString
  | String c s' =>
      String (if previous_is_cased then lower_ascii c else upper_ascii c)
             (title_from (is_upper c || is_lower c) s')
  end.

Definition str_title (s : string) : string := title_from false s.

(** [str(n)] for a length or an index. *)
Definition str_of_nat (n : nat) : string :=
  NilEmpty.string_of_uint (Nat.to_uint n).

(** An optional string inside an f-string: [None] prints as "None". *)
Definition str_of_optional (v : option string) : string :=
  match v with
  | Some s => s
  | None => "None"
  end.

(** Truth value of an optional string: it is present and not empty. *)
Definition truthy_optional (v : option string) : bool :=
  match v with
  | Some s => truthy s
  | None => false
  end.

(** [ConstellationSearchInput], after validation. *)
Module ConstellationSearchInput.
Record t := {
  query : option string;
  shape_type : option string;
  brightness : option string;
  response_format : ResponseFormat
}.
End ConstellationSearchInput.

(** One dictionary of the search results; every value but the name is read
    with [data.get(key)] and may be [None]. *)
Module SearchResult.
Record t := {
  name : string;
  abbr : option string;
  story : option string;
  theme : option string;
  visual_character : option string;
  shape : option string;
  brightness_profile : option string;
  star_count : option Z
}.
End SearchResult.

(** One dictionary of the listing. *)
Module ListItem.
Record t := {
  name : string;
  abbreviation : option string;
  theme : option string;
  shape : option string
}.
End ListItem.

(** What the two catalog tools hand back: a text (a message or markdown),
    or the value that [json.dumps] renders. *)
Inductive CatalogResponse :=
| PlainText (s : string)
| SearchJson (constellations : list SearchResult.t) (count : nat)
| ListJson (constellations : list ListItem.t) (total_count : nat).

(** [tag.replace('_', ' ').title()]: the label shown for a tag. *)
Definition display_label (tag : string) : string :=
  str_title (str_replace "_"%char " "%char tag).

(** The loop of [format_search_results_markdown] from index [i] on; [None]
    stands for the [AttributeError] of [None.replace]. *)
Fixpoint format_search_results_from
    (i : nat) (results : list SearchResult.t) (md : string) : option string :=
  match results with
  | [] => Some md
  | result :: results' =>
      let md := (md ++ "## " ++ str_of_nat i ++ ". "
                    ++ SearchResult.name result ++ newline ++ newline)%string in
      let md := (md ++ "**Abbreviation:** "
                    ++ str_of_optional (SearchResult.abbr result)
                    ++ newline ++ newline)%string in
      let md := (md ++ "**Story:** "
                    ++ str_of_optional (SearchResult.story result)
                    ++ newline ++ newline)%string in
      let md := (md ++ "**Themes:** "
                    ++ str_of_optional (SearchResult.theme result)
                    ++ newline ++ newline)%string in
      let md := (md ++ "**Visual Character:** "
                    ++ str_of_optional (SearchResult.visual_character result)
                    ++ newline ++ newline)%string in
      match SearchResult.shape result with
      | None => None
      | Some shape =>
          let md := (md ++ "**Shape:** " ++ display_label shape
                        ++ newline ++ newline)%string in
          match SearchResult.brightness_profile result with
          | None => None
          | Some brightness_profile =>
              let md := (md ++ "**Brightness:** "
                            ++ display_label brightness_profile
                            ++ newline ++ newline)%string in
              let md := (md ++ "---" ++ newline ++ newline)%string in
              format_search_results_from (S i) results' md
          end
      end
  end.

Definition format_search_results_markdown
    (results : list SearchResult.t) : option string :=
  let md := ("# Found " ++ str_of_nat (List.length results)
             ++ " Constellation(s)" ++ newline ++ newline)%string in
  format_search_results_from 1 results md.

(** The body of the search loop for one catalog entry: does it match? *)
Definition search_match
    (params : ConstellationSearchInput.t) (name : string) (data : Metadata)
    : bool :=
  let match_ := true in
  let match_ :=
    match ConstellationSearchInput.query params with
    | Some query =>
        if truthy query then
          let query_lower := str_lower query in
          let searchable :=
            str_lower (name ++ " " ++ get (story data) "" ++ " "
                       ++ get (theme data) "" ++ " "
                       ++ get (visual_character data) "")%string in
          if negb (str_contains query_lower searchable) then false
          else match_
        else match_
    | None => match_
    end in
  let match_ :=
    if truthy_optional (ConstellationSearchInput.shape_type params)
       && match_ then
      let shape := get (shape data) "" in
      if negb (str_contains
                 (str_lower (get (ConstellationSearchInput.shape_type params)
                                 ""))
                 (str_lower shape))
      then false else match_
    else match_ in
  let match_ :=
    if truthy_optional (ConstellationSearchInput.brightness params)
       && match_ then
      let brightness := get (brightness_profile data) "" in
      if negb (str_contains
                 (str_lower (get (ConstellationSearchInput.brightness params)
                                 ""))
                 (str_lower brightness))
      then false else match_
    else match_ in
  match_.

(** The dictionary appended for a matching entry. *)
Definition search_result (name : string) (data : Metadata) : SearchResult.t :=
  {| SearchResult.name := name;
     SearchResult.abbr := Some (abbr data);
     SearchResult.story := story data;
     SearchResult.theme := theme data;
     SearchResult.visual_character := visual_character data;
     SearchResult.shape := shape data;
     SearchResult.brightness_profile := brightness_profile data;
     SearchResult.star_count := star_count_visual data |}.

(** The loop of [search_constellations] over [catalog.items()]. *)
Definition search_results
    (params : ConstellationSearchInput.t) (catalog : list (string * Metadata))
    : list SearchResult.t :=
  fold_left
    (fun results item =>
       if search_match params (fst item) (snd item)
       then results ++ [search_result (fst item) (snd item)]
       else results)
    catalog [].

(** [search_constellations]; [None] stands for an [AttributeError] of the
    markdown formatter. *)
Definition search_constellations
    (params : ConstellationSearchInput.t) : option CatalogResponse :=
  let results := search_results params CONSTELLATIONS in
  match results with
  | [] =>
      Some (PlainText
        "No constellations found matching your criteria. Try broader search terms.")
  | _ :: _ =>
      match ConstellationSearchInput.response_format params with
      | JSON => Some (SearchJson results (List.length results))
      | MARKDOWN =>
          match format_search_results_markdown results with
          | Some md => Some (PlainText md)
          | None => None
          end
      end
  end.

(** [sorted(d.items())]: the keys of a dictionary are distinct, so the pairs
    are ordered by their keys alone. *)
Fixpoint insert_item {V : Type}
    (item : string * V) (l : list (string * V)) : list (string * V) :=
  match l with
  | [] => [item]
  | h :: t =>
      if String.leb (fst item) (fst h) then item :: l
      else h :: insert_item item t
  end.

Fixpoint sorted_items {V : Type} (l : list (string * V)) : list (string * V) :=
  match l with
  | [] => []
  | h :: t => insert_item h (sorted_items t)
  end.

(** The dictionary appended by [list_all_constellations] for one entry. *)
Definition list_item (name : string) (data : Metadata) : ListItem.t :=
  {| ListItem.name := name;
     ListItem.abbreviation := Some (abbr data);
     ListItem.theme := theme data;
     ListItem.shape := shape data |}.

(** The markdown loop of [list_all_constellations]. *)
Fixpoint format_list_from
    (constellation_list : list ListItem.t) (md : string) : option string :=
  match constellation_list with
  | [] => Some md
  | item :: rest =>
      let md := (md ++ "## " ++ ListItem.name item ++ " ("
                    ++ str_of_optional (ListItem.abbreviation item) ++ ")"
                    ++ newline ++ newline)%string in
      let md := (md ++ "**Theme:** " ++ str_of_optional (ListItem.theme item)
                    ++ newline ++ newline)%string in
      match ListItem.shape item with
      | None => None
      | Some shape =>
          let md := (md ++ "**Shape Pattern:** " ++ display_label shape
                        ++ newline ++ newline)%string in
          let md := (md ++ "---" ++ newline ++ newline)%string in
          format_list_from rest md
      end
  end.

(** [list_all_constellations]; [None] stands for an [AttributeError]. *)
Definition list_all_constellations
    (response_format : ResponseFormat) : option CatalogResponse :=
  let constellation_list :=
    fold_left
      (fun constellation_list item =>
         constellation_list ++ [list_item (fst item) (snd item)])
      (sorted_items CONSTELLATIONS) [] in
  match response_format with
  | JSON =>
      Some (ListJson constellation_list (List.length constellation_list))
  | MARKDOWN =>
      let md := ("# Available Constellations ("
                 ++ str_of_nat (List.length constellation_list) ++ ")"
                 ++ newline ++ newline)%string in
      match format_list_from constellation_list md with
      | Some md => Some (PlainText md)
      | None => None
      end
  end.

(* ====================================================================== *)
(** * Which focal-point rule fires *)
(* ====================================================================== *)

(** One of the eight rules that return literal points matches. *)
Definition literal_rule_matches (brightness shape : string) : bool :=
  earlier_rule_matches brightness shape
  || str_contains "square" shape
  || str_contains "triangular" shape.

(** The sine sweep is reached: no literal rule matches and the shape tag
    contains "curved" or "tail". *)
Definition reaches_curved (brightness shape : string) : bool :=
  negb (literal_rule_matches brightness shape)
  && (str_contains "curved" shape || str_contains "tail" shape).

(** The seeded scatter is reached: neither a literal rule nor the sweep
    matches and the shape tag contains "dispersed". *)
Definition reaches_dispersed (brightness shape : string) : bool :=
  negb (literal_rule_matches brightness shape)
  && negb (str_contains "curved" shape || str_contains "tail" shape)
  && str_contains "dispersed" shape.

(** A point of the scatter: coordinates in [[0.2, 0.8)], weight in
    [[0.2, 0.4)]. *)
Definition scattered (p : FocalPoint) : Prop :=
  0.2 <= x p < 0.8 /\ 0.2 <= y p < 0.8 /\ 0.2 <= weight p < 0.4.

(** The body of the scatter loop of [generate_focal_points]. *)
Definition scatter_body `{Platform} (points : list FocalPoint) (i : nat)
    : M (list FocalPoint) :=
  rx <- random_random ;;
  ry <- random_random ;;
  rw <- random_random ;;
  ret (points ++ [ {| x := 0.2 + rx * 0.6;
                      y := 0.2 + ry * 0.6;
                      weight := 0.2 + rw * 0.2 |} ]).

(** The catalog name that a lower-cased input resolves to: by name first,
    by abbreviation second, as in [validate_constellation]. *)
Definition resolve_lower (l : string) : option string :=
  match find (fun name => String.eqb l (str_lower name))
             (keys CONSTELLATIONS) with
  | Some name => Some name
  | None =>
      match find (fun item => String.eqb l (str_lower (abbr (snd item))))
                 CONSTELLATIONS with
      | Some (name, _) => Some name
      | None => None
      end
  end.

(** Both the name and the abbreviation of a catalog entry, lower-cased,
    resolve to the name of that entry. *)
Definition resolves_to_itself (item : string * Metadata) : bool :=
  match resolve_lower (str_lower (fst item)),
        resolve_lower (str_lower (abbr (snd item))) with
  | Some n1, Some n2 => String.eqb n1 (fst item) && String.eqb n2 (fst item)
  | _, _ => false
  end.

(** The value the composition tool returns for a catalog entry. *)
Definition document (params : ConstellationCompositionInput)
    (metadata : Metadata) (composition : CompositionParameters) : Response :=
  match response_format params with
  | JSON =>
      JsonDocument (constellation_name params) (abbr metadata)
        (canvas_width params) (canvas_height params) composition
  | MARKDOWN =>
      MarkdownDocument (constellation_name params) metadata composition
  end.

(** One criterion of the search, as the specification words it: an absent
    or empty criterion filters nothing, a present one must occur in the
    text, both taken in lower case. *)
Definition criterion (c : option string) (text : string) : bool :=
  negb (truthy_optional c)
  || str_contains (str_lower (get c "")) (str_lower text).

(** The text that a query is searched in. *)
Definition searchable (name : string) (data : Metadata) : string :=
  (name ++ " " ++ get (story data) "" ++ " " ++ get (theme data) "" ++ " "
   ++ get (visual_character data) "")%string.

(** The message of a search without results. *)
Definition no_match_text : string :=
  "No constellations found matching your criteria. Try broader search terms.".

(** A catalog entry has the two tags that the markdown formatters need. *)
Definition has_tags (item : string * Metadata) : bool :=
  match shape (snd item), brightness_profile (snd item) with
  | Some _, Some _ => true
  | _, _ => false
  end.

(* ====================================================================== *)
(** * Notions and inputs of the further properties *)
(* ====================================================================== *)

(** The input for "Lyra" at the default canvas. *)
Definition lyra_input : ConstellationCompositionInput :=
  {| constellation_name := "Lyra";
     canvas_width := Some 1024%Z; canvas_height := Some 1024%Z;
     include_mythology := true; response_format := JSON |}.

(** A search for twins, and the same search typed in capitals. *)
Definition twin_search : ConstellationSearchInput.t :=
  {| ConstellationSearchInput.query := Some "twin";
     ConstellationSearchInput.shape_type := None;
     ConstellationSearchInput.brightness := Some "bright";
     ConstellationSearchInput.response_format := MARKDOWN |}.

Definition TWIN_search : ConstellationSearchInput.t :=
  {| ConstellationSearchInput.query := Some "TWIN";
     ConstellationSearchInput.shape_type := None;
     ConstellationSearchInput.brightness := Some "Bright";
     ConstellationSearchInput.response_format := MARKDOWN |}.

(** A search with every criterion empty. *)
Definition blank_search : ConstellationSearchInput.t :=
  {| ConstellationSearchInput.query := Some "";
     ConstellationSearchInput.shape_type := None;
     ConstellationSearchInput.brightness := Some "";
     ConstellationSearchInput.response_format := JSON |}.

(** A theme is clean: lower-case and without white space at either end. *)
Definition clean_theme (t : string) : Prop :=
  str_lower t = t /\ str_strip t = t.

(** A list of three or of four suggestions. *)
Definition three_or_four (l : list string) : Prop :=
  List.length l = 3%nat \/ List.length l = 4%nat.

(** A shape rule of the spatial distribution matches. *)
Definition shape_decides_distribution (shape : string) : bool :=
  str_contains "compact" shape
  || (str_contains "dispersed" shape || str_contains "cascade" shape)
  || (str_contains "linear" shape || str_contains "belt" shape).

(** A string that does not begin with white space. *)
Definition starts_clean (s : string) : Prop :=
  match s with
  | EmptyString => True
  | String c _ => is_space c = false
  end.

(** The four lines that the markdown of [list_all_constellations] shows for
    one item: name and abbreviation, theme, the label of the shape tag, and
    a rule.  The tag is read with a default that no item of the catalog
    uses. *)
Definition listing_block (item : ListItem.t) : string :=
  (("## " ++ ListItem.name item ++ " ("
         ++ str_of_optional (ListItem.abbreviation item) ++ ")"
         ++ newline ++ newline)
   ++ ("**Theme:** " ++ str_of_optional (ListItem.theme item)
         ++ newline ++ newline)
   ++ ("**Shape Pattern:** " ++ display_label (get (ListItem.shape item) "")
         ++ newline ++ newline)
   ++ ("---" ++ newline ++ newline))%string.

(** The markdown listing of a list of items: a heading with their number,
    then one block per item, in the order of the list. *)
Definition listing_markdown (items : list ListItem.t) : string :=
  ("# Available Constellations (" ++ str_of_nat (List.length items) ++ ")"
     ++ newline ++ newline
     ++ fold_right String.append EmptyString (map listing_block items))%string.

(* ====================================================================== *)
(** * Lemmas *)
(* ====================================================================== *)

(** ** Sums *)

Lemma fold_left_Rplus_sigma (l : list R) (a : R) :
  fold_left Rplus l a = a + sigma l.
Proof.
  revert a; induction l as [|b l IH]; intros a; simpl.
  - lra.
  - rewrite IH. lra.
Qed.

Lemma py_sum_sigma (l : list R) : py_sum l = sigma l.
Proof. unfold py_sum. rewrite fold_left_Rplus_sigma. lra. Qed.

Lemma sigma_pos (l : list R) :
  l <> [] -> Forall (fun r => 0 < r) l -> 0 < sigma l.
Proof.
  intros Hne Hall. induction Hall as [|a l Ha Hl IH]; [congruence|].
  simpl. destruct l as [|b l'].
  - simpl. lra.
  - assert (0 < sigma (b :: l')) by (apply IH; discriminate). lra.
Qed.

Lemma py_div_ok (a b : R) : b <> 0 -> py_div a b = Ok (a / b).
Proof.
  intros Hb. unfold py_div. destruct (Req_dec_T b 0); [contradiction|reflexivity].
Qed.

(** ** The monad *)

Section Monad.
Context {P : Platform}.

Lemma bind_Ok {A B : Type} (c : M A) (k : A -> M B) (w w' : World) (a : A) :
  c w = (Ok a, w') -> bind c k w = k a w'.
Proof. intros H. unfold bind. rewrite H. reflexivity. Qed.

Lemma for_each_invariant {A S : Type} (I : S -> Prop)
    (l : list A) (body : S -> A -> M S) :
  (forall s a w, In a l -> I s ->
     exists s' w', body s a w = (Ok s', w') /\ I s') ->
  forall s w, I s ->
    exists s' w', for_each l body s w = (Ok s', w') /\ I s'.
Proof.
  induction l as [|a l IH]; intros Hbody s w Hs; simpl.
  - exists s, w. split; [reflexivity|assumption].
  - destruct (Hbody s a w (or_introl eq_refl) Hs) as (s1 & w1 & E1 & H1).
    rewrite (bind_Ok _ _ _ _ _ E1).
    apply IH; [|assumption].
    intros s0 a0 w0 Hin. apply Hbody. right; assumption.
Qed.

Lemma for_each_related {A S : Type} (Rw : World -> World -> Prop)
    (l : list A) (body : S -> A -> M S) :
  (forall s a w1 w2, Rw w1 w2 ->
     fst (body s a w1) = fst (body s a w2)
     /\ Rw (snd (body s a w1)) (snd (body s a w2))) ->
  forall s w1 w2, Rw w1 w2 ->
    fst (for_each l body s w1) = fst (for_each l body s w2)
    /\ Rw (snd (for_each l body s w1)) (snd (for_each l body s w2)).
Proof.
  intros Hbody. induction l as [|a l IH]; intros s w1 w2 Hw; simpl.
  - split; [reflexivity|assumption].
  - unfold bind. destruct (Hbody s a w1 w2 Hw) as [Hf Hs].
    destruct (body s a w1) as [r1 v1], (body s a w2) as [r2 v2].
    simpl in Hf, Hs. subst r2. destruct r1 as [s1|e].
    + apply IH; assumption.
    + split; [reflexivity|assumption].
Qed.

End Monad.

Lemma well_formed_intro (a b c : R) :
  0 <= a <= 1 -> 0 <= b <= 1 -> 0 < c ->
  well_formed {| x := a; y := b; weight := c |}.
Proof. intros. unfold well_formed. simpl. auto. Qed.

Ltac literal_points :=
  eexists _, _; split; [reflexivity|];
  split; [discriminate|];
  repeat first [apply Forall_nil | apply Forall_cons];
  apply well_formed_intro; lra.

Section FocalPoints.
Context {P : Platform}.
Hypothesis random_ok : random_contract P.

Lemma random_random_spec (w : World) :
  exists r w', random_random w = (Ok r, w') /\ 0 <= r < 1.
Proof.
  unfold random_random. pose proof (random_ok (rng w)) as H.
  destruct (random (rng w)) as [r g]. simpl in H.
  eexists _, _. split; [reflexivity|assumption].
Qed.

(** One round of the sine sweep, for an index of [range 7]. *)
Lemma curved_step (points : list FocalPoint) (i : nat) (w : World) :
  In i (range 7) -> Forall well_formed points ->
  exists points' w',
    (t <- lift (py_div (INR i) (INR (7 - 1))) ;;
     ret (points ++ [ {| x := 0.2 + 0.6 * t;
                         y := 0.5 + 0.2 * sin (t * PI);
                         weight := if (i <? 2)%nat then 0.4 else 0.2 |} ])) w
    = (Ok points', w')
    /\ Forall well_formed points' /\ points' <> [].
Proof.
  intros Hi Hall. unfold range in Hi. apply in_seq in Hi.
  assert (H6 : INR (7 - 1) = 6) by (simpl; lra).
  assert (Hi0 : 0 <= INR i) by apply pos_INR.
  assert (Hi6 : INR i <= 6).
  { replace 6 with (INR 6) by (simpl; lra). apply le_INR. lia. }
  unfold bind, lift, ret. rewrite py_div_ok by (rewrite H6; lra).
  eexists _, _. split; [reflexivity|]. split.
  - apply Forall_app. split; [assumption|]. constructor; [|constructor].
    rewrite H6.
    pose proof (SIN_bound (INR i / 6 * PI)) as Hs.
    apply well_formed_intro.
    + lra.
    + lra.
    + destruct (i <? 2)%nat; lra.
  - intros E. apply app_eq_nil in E. destruct E; discriminate.
Qed.

(** One round of the scatter: three draws from the generator. *)
Lemma dispersed_step (points : list FocalPoint) (w : World) :
  Forall well_formed points ->
  exists points' w',
    (rx <- random_random ;;
     ry <- random_random ;;
     rw <- random_random ;;
     ret (points ++ [ {| x := 0.2 + rx * 0.6;
                         y := 0.2 + ry * 0.6;
                         weight := 0.2 + rw * 0.2 |} ])) w
    = (Ok points', w')
    /\ Forall well_formed points' /\ points' <> [].
Proof.
  intros Hall.
  destruct (random_random_spec w) as (rx & w1 & E1 & H1).
  destruct (random_random_spec w1) as (ry & w2 & E2 & H2).
  destruct (random_random_spec w2) as (rw & w3 & E3 & H3).
  rewrite (bind_Ok _ _ _ _ _ E1), (bind_Ok _ _ _ _ _ E2),
    (bind_Ok _ _ _ _ _ E3).
  eexists _, _. split; [reflexivity|]. split.
  - apply Forall_app. split; [assumption|]. constructor; [|constructor].
    apply well_formed_intro; lra.
  - intros E. apply app_eq_nil in E. destruct E; discriminate.
Qed.

Lemma generate_focal_points_sound
    (brightness shape : string) (width height : option Z) (w : World) :
  exists points w',
    generate_focal_points brightness shape width height w = (Ok points, w')
    /\ points <> [] /\ Forall well_formed points.
Proof.
  unfold generate_focal_points.
  repeat match goal with
         | |- context [if ?c then _ else _] => destruct c
         end; try literal_points.
  - (* curved or tail *)
    change (range 7) with (0%nat :: seq 1 6). cbn [for_each].
    destruct (curved_step [] 0 w) as (p1 & w1 & E1 & H1 & N1);
      [unfold range; simpl; auto | constructor |].
    rewrite (bind_Ok _ _ _ _ _ E1).
    destruct (for_each_invariant
                (fun s => Forall well_formed s /\ s <> [])
                (seq 1 6)
                (fun points i =>
                   t <- lift (py_div (INR i) (INR (7 - 1))) ;;
                   ret (points ++ [ {| x := 0.2 + 0.6 * t;
                                       y := 0.5 + 0.2 * sin (t * PI);
                                       weight := if (i <? 2)%nat
                                                 then 0.4 else 0.2 |} ])))
      with (s := p1) (w := w1) as (ps & w' & E & Hps & Nps).
    + intros s a w0 Hin [Hs _].
      destruct (curved_step s a w0) as (s' & w0' & E' & H' & N'); auto.
      { unfold range. simpl in *. intuition. }
      exists s', w0'. auto.
    + auto.
    + exists ps, w'. auto.
  - (* dispersed *)
    unfold bind at 1. unfold random_seed.
    change (range 6) with (0%nat :: seq 1 5). cbn [for_each].
    match goal with |- context [bind _ _ ?w0] => set (w1 := w0) end.
    destruct (dispersed_step [] w1) as (p1 & w2 & E1 & H1 & N1);
      [constructor|].
    rewrite (bind_Ok _ _ _ _ _ E1).
    destruct (for_each_invariant
                (fun s => Forall well_formed s /\ s <> [])
                (seq 1 5)
                (fun (points : list FocalPoint) (i : nat) =>
                   rx <- random_random ;;
                   ry <- random_random ;;
                   rw <- random_random ;;
                   ret (points ++ [ {| x := 0.2 + rx * 0.6;
                                       y := 0.2 + ry * 0.6;
                                       weight := 0.2 + rw * 0.2 |} ])))
      with (s := p1) (w := w2) as (ps & w' & E & Hps & Nps).
    + intros s a w0 Hin [Hs _].
      destruct (dispersed_step s w0) as (s' & w0' & E' & H' & N'); auto.
      exists s', w0'. auto.
    + auto.
    + exists ps, w'. auto.
Qed.

End FocalPoints.

Lemma Forall_weights (points : list FocalPoint) :
  Forall well_formed points ->
  Forall (fun r => 0 < r) (map (fun p => weight p) points).
Proof.
  intros H. apply Forall_map. eapply Forall_impl; [|exact H].
  intros p (_ & _ & Hw). exact Hw.
Qed.

Lemma total_weight_pos (points : list FocalPoint) :
  points <> [] -> Forall well_formed points ->
  0 < py_sum (map (fun p => weight p) points).
Proof.
  intros Hne Hall. rewrite py_sum_sigma. apply sigma_pos.
  - destruct points; [congruence|discriminate].
  - apply Forall_weights; assumption.
Qed.

(** What [calculate_balance] returns when the total weight is not zero. *)
Lemma calculate_balance_Ok (shape : string) (points : list FocalPoint) :
  py_sum (map (fun p => weight p) points) <> 0 ->
  exists b,
    calculate_balance shape points = Ok b
    /\ center_of_mass b
       = (py_sum (map (fun p => x p * weight p) points)
          / py_sum (map (fun p => weight p) points),
          py_sum (map (fun p => y p * weight p) points)
          / py_sum (map (fun p => weight p) points))
    /\ symmetry b
       = (if str_contains "symmetric" shape || str_contains "cross" shape
             || str_contains "square" shape
          then "symmetric" else "asymmetric").
Proof.
  intros Hw. unfold calculate_balance.
  rewrite !py_div_ok by assumption.
  eexists. split; [reflexivity|]. split; reflexivity.
Qed.

Section Mapping.
Context {P : Platform}.

Lemma map_constellation_to_composition_Ok
    (name : string) (metadata : Metadata) (geometry_data : option geometry)
    (width height : option Z) (include_mythology : bool)
    (w w' : World) (points : list FocalPoint) (b : Balance) :
  generate_focal_points (get (brightness_profile metadata) "moderate")
    (get (shape metadata) "dispersed") width height w = (Ok points, w') ->
  calculate_balance (get (shape metadata) "dispersed") points = Ok b ->
  map_constellation_to_composition name metadata geometry_data width height
    include_mythology w
  = (Ok (assemble metadata geometry_data include_mythology points b), w').
Proof.
  intros Hg Hb. unfold map_constellation_to_composition.
  rewrite (bind_Ok _ _ _ _ _ Hg).
  unfold bind, lift. rewrite Hb. reflexivity.
Qed.

Lemma map_constellation_to_composition_sound
    (random_ok : random_contract P)
    (name : string) (metadata : Metadata) (geometry_data : option geometry)
    (width height : option Z) (include_mythology : bool) (w : World) :
  exists points b w',
    map_constellation_to_composition name metadata geometry_data width height
      include_mythology w
    = (Ok (assemble metadata geometry_data include_mythology points b), w')
    /\ points <> [] /\ Forall well_formed points
    /\ calculate_balance (get (shape metadata) "dispersed") points = Ok b.
Proof.
  destruct (generate_focal_points_sound random_ok
              (get (brightness_profile metadata) "moderate")
              (get (shape metadata) "dispersed") width height w)
    as (points & w' & Hg & Hne & Hall).
  destruct (calculate_balance_Ok (get (shape metadata) "dispersed") points)
    as (b & Hb & _).
  { pose proof (total_weight_pos points Hne Hall). lra. }
  exists points, b, w'. split; [|auto].
  apply map_constellation_to_composition_Ok; assumption.
Qed.

(** ** Independence from the world *)

Lemma generate_focal_points_world
    (brightness shape : string) (width height width' height' : option Z)
    (w1 w2 : World) :
  fst (generate_focal_points brightness shape width height w1)
  = fst (generate_focal_points brightness shape width' height' w2).
Proof.
  unfold generate_focal_points.
  repeat match goal with
         | |- context [if ?c then _ else _] => destruct c
         end; try reflexivity.
  - apply (for_each_related (fun _ _ => True)); [|exact I].
    intros s a v1 v2 _. split; [|exact I].
    unfold bind, lift, ret. destruct (py_div _ _); reflexivity.
  - unfold bind at 1 3. unfold random_seed.
    apply (for_each_related same_rng); [|reflexivity].
    intros s a v1 v2 Hv. unfold same_rng in *.
    unfold bind, random_random, ret. rewrite Hv.
    destruct (random (rng v2)) as [r1 g1]. cbn [rng].
    destruct (random g1) as [r2 g2]. cbn [rng].
    destruct (random g2) as [r3 g3]. cbn [rng fst snd].
    split; reflexivity.
Qed.

Lemma map_constellation_to_composition_world
    (name name' : string) (metadata : Metadata)
    (geometry_data geometry_data' : option geometry)
    (width height width' height' : option Z) (include_mythology : bool)
    (w1 w2 : World) :
  fst (map_constellation_to_composition name metadata geometry_data
         width height include_mythology w1)
  = fst (map_constellation_to_composition name' metadata geometry_data'
           width' height' include_mythology w2).
Proof.
  unfold map_constellation_to_composition.
  pose proof (generate_focal_points_world
                (get (brightness_profile metadata) "moderate")
                (get (shape metadata) "dispersed")
                width height width' height' w1 w2) as Hg.
  unfold bind at 1 3.
  destruct (generate_focal_points _ _ width height w1) as [r1 v1].
  destruct (generate_focal_points _ _ width' height' w2) as [r2 v2].
  simpl in Hg. subst r2. destruct r1 as [points|e]; [|reflexivity].
  unfold bind, lift, ret.
  destruct (calculate_balance _ points); reflexivity.
Qed.

End Mapping.

(** ** The log of requests *)

Section Requests.
Context {P : Platform}.

Lemma for_each_world {A S : Type} (Q : World -> Prop)
    (l : list A) (body : S -> A -> M S) :
  (forall s a w, Q w -> Q (snd (body s a w))) ->
  forall s w, Q w -> Q (snd (for_each l body s w)).
Proof.
  intros Hbody. induction l as [|a l IH]; intros s w Hw; simpl.
  - exact Hw.
  - unfold bind. pose proof (Hbody s a w Hw) as H1.
    destruct (body s a w) as [[s1|e] w1]; simpl in H1.
    + apply IH. exact H1.
    + exact H1.
Qed.

Lemma generate_focal_points_requests
    (brightness shape : string) (width height : option Z) (w : World) :
  requests (snd (generate_focal_points brightness shape width height w))
  = requests w.
Proof.
  unfold generate_focal_points.
  repeat match goal with
         | |- context [if ?c then _ else _] => destruct c
         end; try reflexivity.
  - apply (for_each_world (fun v => requests v = requests w));
      [|reflexivity].
    intros s a v Hv. unfold bind, lift, ret.
    destruct (py_div _ _); exact Hv.
  - unfold bind at 1. unfold random_seed.
    apply (for_each_world (fun v => requests v = requests w));
      [|reflexivity].
    intros s a v Hv. unfold bind, random_random, ret.
    destruct (random (rng v)) as [r1 g1]. cbn [rng].
    destruct (random g1) as [r2 g2]. cbn [rng].
    destruct (random g2) as [r3 g3]. exact Hv.
Qed.

(** A name of the catalog always costs one request to the network: a world
    left as it was has seen no mapping. *)
Lemma found_name_requests_geometry
    (params : ConstellationCompositionInput) (metadata : Metadata)
    (w : World) :
  lookup (constellation_name params) CONSTELLATIONS = Some metadata ->
  requests (snd (generate_constellation_composition params w))
  = requests w ++ [abbr metadata].
Proof.
  intros Hl. unfold generate_constellation_composition. rewrite Hl.
  unfold bind at 1. unfold fetch_constellation_data.
  unfold bind at 1. unfold map_constellation_to_composition.
  unfold bind at 1.
  match goal with
  | |- context [generate_focal_points ?b ?s ?wd ?ht ?v] =>
      pose proof (generate_focal_points_requests b s wd ht v) as Hg;
      destruct (generate_focal_points b s wd ht v) as [[points|e] v1]
  end; simpl in Hg.
  - unfold bind, lift, ret.
    destruct (calculate_balance _ points); [|exact Hg].
    destruct (response_format params); exact Hg.
  - exact Hg.
Qed.

End Requests.

(** ** Sorting *)

Lemma insert_sorted_Permutation (s : string) (l : list string) :
  Permutation (s :: l) (insert_sorted s l).
Proof.
  induction l as [|h t IH]; simpl.
  - apply Permutation_refl.
  - destruct (String.leb s h).
    + apply Permutation_refl.
    + eapply perm_trans; [apply perm_swap|]. apply perm_skip. exact IH.
Qed.

Lemma sorted_Permutation (l : list string) : Permutation l (sorted l).
Proof.
  induction l as [|h t IH]; simpl.
  - apply perm_nil.
  - eapply perm_trans; [|apply insert_sorted_Permutation].
    apply perm_skip. exact IH.
Qed.

Lemma insert_sorted_HdRel (a s : string) (l : list string) :
  name_le a s -> HdRel name_le a l -> HdRel name_le a (insert_sorted s l).
Proof.
  intros Has Hl. destruct l as [|h t]; simpl.
  - constructor. exact Has.
  - destruct (String.leb s h); constructor.
    + exact Has.
    + inversion Hl; assumption.
Qed.

Lemma insert_sorted_Sorted (s : string) (l : list string) :
  Sorted name_le l -> Sorted name_le (insert_sorted s l).
Proof.
  induction 1 as [|h t Ht IH Hh]; simpl.
  - repeat constructor.
  - destruct (String.leb s h) eqn:E.
    + constructor; [constructor; assumption|]. constructor. exact E.
    + constructor; [exact IH|].
      apply insert_sorted_HdRel; [|exact Hh].
      destruct (String.leb_total s h) as [H|H]; [congruence|exact H].
Qed.

Lemma sorted_Sorted (l : list string) : Sorted name_le (sorted l).
Proof.
  induction l as [|h t IH]; simpl.
  - constructor.
  - apply insert_sorted_Sorted. exact IH.
Qed.

(** ** Name resolution *)

Lemma unresolved_lookup (v : string) (d : list (string * Metadata)) :
  existsb
    (fun item =>
       String.eqb (str_lower v) (str_lower (fst item))
       || String.eqb (str_lower v) (str_lower (abbr (snd item)))) d = false ->
  lookup v d = None
  /\ find (fun name => String.eqb (str_lower v) (str_lower name)) (keys d)
     = None
  /\ find (fun item =>
             String.eqb (str_lower v) (str_lower (abbr (snd item)))) d
     = None.
Proof.
  induction d as [|[k m] d IH]; simpl; intros H.
  - auto.
  - apply orb_false_iff in H. destruct H as [H Hd].
    apply orb_false_iff in H. destruct H as [Hk Ha].
    destruct (IH Hd) as (IH1 & IH2 & IH3).
    rewrite Hk, Ha. repeat split; try assumption.
    destruct (String.eqb v k) eqn:E; [|assumption].
    apply String.eqb_eq in E. subst k.
    rewrite String.eqb_refl in Hk. discriminate.
Qed.

Lemma unresolved_validate (v : string) :
  resolves v = false ->
  validate_constellation v = v /\ lookup v CONSTELLATIONS = None.
Proof.
  intros H. destruct (unresolved_lookup v CONSTELLATIONS H) as (L & F1 & F2).
  split; [|exact L].
  unfold validate_constellation. rewrite F1, F2. reflexivity.
Qed.

(** ** CPython's generator honours the contract of [random.random] *)

Lemma u32_range (z : Z) : (0 <= MT19937.u32 z < 4294967296)%Z.
Proof. unfold MT19937.u32. apply Z.mod_pos_bound. lia. Qed.

Lemma genrand_uint32_range (s : MT19937.state) :
  (0 <= fst (MT19937.genrand_uint32 s) < 4294967296)%Z.
Proof.
  unfold MT19937.genrand_uint32.
  destruct (if (MT19937.N <=? MT19937.index s)%nat then _ else _) as [m i].
  simpl. apply u32_range.
Qed.

Lemma random53_range (s : MT19937.state) :
  (0 <= fst (MT19937.random53 s) < 9007199254740992)%Z.
Proof.
  unfold MT19937.random53.
  pose proof (genrand_uint32_range s) as Ha.
  destruct (MT19937.genrand_uint32 s) as [a s1]. simpl in Ha.
  pose proof (genrand_uint32_range s1) as Hb.
  destruct (MT19937.genrand_uint32 s1) as [b s2]. simpl in Hb. simpl.
  rewrite !Z.shiftr_div_pow2 by lia.
  change (2 ^ 5)%Z with 32%Z. change (2 ^ 6)%Z with 64%Z.
  assert (0 <= a / 32 < 134217728)%Z.
  { split; [apply Z.div_pos; lia|apply Z.div_lt_upper_bound; lia]. }
  assert (0 <= b / 64 < 67108864)%Z.
  { split; [apply Z.div_pos; lia|apply Z.div_lt_upper_bound; lia]. }
  lia.
Qed.

Lemma CPython_random_contract : random_contract CPython_offline.
Proof.
  intros g. simpl in g |- *. unfold MT19937.random.
  pose proof (random53_range g) as H.
  destruct (MT19937.random53 g) as [k g']. simpl in H. simpl.
  destruct H as [H0 H1]. apply IZR_le in H0. apply IZR_lt in H1.
  lra.
Qed.

(** ** The catalog entries of the scenarios *)

Ltac eval_tests :=
  repeat match goal with
         | |- context [str_contains ?a ?b] =>
             let v := eval vm_compute in (str_contains a b) in
             change (str_contains a b) with v
         end;
  cbn [orb].

Lemma calculate_balance_type (shape : string) (points : list FocalPoint)
    (b : Balance) :
  calculate_balance shape points = Ok b ->
  balance_type b
  = (if Rlt_dec (Rabs (fst (center_of_mass b) - 0.5)) 0.1 then
       if Rlt_dec (Rabs (snd (center_of_mass b) - 0.5)) 0.1 then "centered"
       else "vertically_centered"
     else if Rlt_dec (Rabs (snd (center_of_mass b) - 0.5)) 0.1 then
       "horizontally_centered"
     else "asymmetric").
Proof.
  unfold calculate_balance.
  destruct (py_div _ _) as [cx|]; [|discriminate].
  destruct (py_div _ _) as [cy|]; [|discriminate].
  intros E. injection E as <-. reflexivity.
Qed.

Section Scenarios.
Context {P : Platform}.

Lemma orion_focal_points (width height : option Z) (w : World) :
  generate_focal_points "multiple_bright_stars" "hourglass_belt"
    width height w
  = (Ok [ {| x := 0.5; y := 0.45; weight := 0.4 |};
          {| x := 0.35; y := 0.3; weight := 0.35 |};
          {| x := 0.65; y := 0.3; weight := 0.35 |};
          {| x := 0.35; y := 0.7; weight := 0.25 |};
          {| x := 0.65; y := 0.7; weight := 0.25 |} ], w).
Proof. unfold generate_focal_points. eval_tests. reflexivity. Qed.

Lemma orion_composition (geometry_data : option geometry)
    (width height : option Z) (include_mythology : bool) (w : World) :
  exists c,
    map_constellation_to_composition "Orion" Orion geometry_data
      width height include_mythology w = (Ok c, w)
    /\ focal_points c
       = [ {| x := 0.5; y := 0.45; weight := 0.4 |};
           {| x := 0.35; y := 0.3; weight := 0.35 |};
           {| x := 0.65; y := 0.3; weight := 0.35 |};
           {| x := 0.35; y := 0.7; weight := 0.25 |};
           {| x := 0.65; y := 0.7; weight := 0.25 |} ]
    /\ spatial_distribution c = "linear_arrangement".
Proof.
  pose proof (orion_focal_points width height w) as Hg.
  destruct (calculate_balance_Ok "hourglass_belt"
              [ {| x := 0.5; y := 0.45; weight := 0.4 |};
                {| x := 0.35; y := 0.3; weight := 0.35 |};
                {| x := 0.65; y := 0.3; weight := 0.35 |};
                {| x := 0.35; y := 0.7; weight := 0.25 |};
                {| x := 0.65; y := 0.7; weight := 0.25 |} ])
    as (b & Hb & _).
  { unfold py_sum. simpl. lra. }
  eexists. split.
  - apply (map_constellation_to_composition_Ok "Orion" Orion geometry_data
             width height include_mythology w w _ b Hg Hb).
  - split; reflexivity.
Qed.

End Scenarios.

Lemma Rabs_zero_lt (a : R) : a = 0.5 -> Rabs (a - 0.5) < 0.1.
Proof. intros ->. rewrite Rminus_diag, Rabs_R0. lra. Qed.

Lemma gemini_focal_points {P : Platform} (width height : option Z) (w : World) :
  generate_focal_points "two_bright_stars" "parallel_twins" width height w
  = (Ok [ {| x := 0.35; y := 0.5; weight := 0.5 |};
          {| x := 0.65; y := 0.5; weight := 0.5 |} ], w).
Proof. unfold generate_focal_points. eval_tests. reflexivity. Qed.

(** The sine sweep, here for the tags of "Scorpius": the seven points of
    the analytic formula, in order. *)
Lemma scorpius_focal_points {P : Platform}
    (width height : option Z) (w : World) :
  generate_focal_points "very_bright_red" "curved_tail" width height w
  = (Ok (map sweep_point (range 7)), w).
Proof.
  unfold generate_focal_points. eval_tests.
  assert (H6 : INR (7 - 1) = 6) by (simpl; lra).
  rewrite H6. cbv [range seq for_each map sweep_point].
  unfold bind, lift, ret.
  rewrite !py_div_ok by lra. reflexivity.
Qed.

(** The apex of the sweep is its middle point, at (0.5, 0.7). *)
Lemma sweep_point_apex :
  sweep_point 3 = {| x := 0.5; y := 0.7; weight := 0.2 |}.
Proof.
  unfold sweep_point.
  assert (H3 : INR 3 / 6 = 1 / 2) by (simpl; lra).
  rewrite H3. replace (1 / 2 * PI) with (PI / 2) by lra. rewrite sin_PI2.
  cbn [Nat.ltb Nat.leb]. f_equal; lra.
Qed.

Lemma extract_mythology_themes_length (metadata : Metadata) :
  (List.length (extract_mythology_themes metadata) <= 5)%nat.
Proof.
  unfold extract_mythology_themes, slice_to.
  apply firstn_le_length.
Qed.

Lemma catalog_has_themes : forallb has_themes CONSTELLATIONS = true.
Proof. vm_compute. reflexivity. Qed.

(** ** The model on concrete inputs *)

(** After [random.seed(42)] the first [random.random()] of CPython is
    0.6394267984578837, that is 5759444582531269 / 2^53. *)
Example seed_42_first_draw :
  fst (MT19937.random53 (MT19937.seed 42)) = 5759444582531269%Z.
Proof. vm_compute. reflexivity. Qed.

Example draws_depend_on_the_state :
  fst (MT19937.random53 (MT19937.seed 42))
  <> fst (MT19937.random53 (MT19937.seed 0)).
Proof. vm_compute. discriminate. Qed.

(** In binary64 too, the centroid of the two "Gemini" points is exactly
    (0.5, 0.5): the rounding errors of 0.35 and 0.65 cancel. *)
Example two_bright_stars_center_binary64 :
  Binary64.center_of_mass Binary64.two_bright_stars = Binary64.canvas_center.
Proof. vm_compute. reflexivity. Qed.

Example orion_themes :
  extract_mythology_themes Orion
  = ["hunting prowess"; "tragic death"; "grandeur"; "the hunt"].
Proof. vm_compute. reflexivity. Qed.

(** An implied theme is appended even when the theme field already has
    it. *)
Example ursa_major_theme_listed_twice :
  extract_mythology_themes Ursa_Major
  = ["transformation"; "eternal circling"; "guidance"; "transformation"].
Proof. vm_compute. reflexivity. Qed.

Example split_keeps_empty_fragments :
  str_split ","%char "a,,b," = ["a"; ""; "b"; ""].
Proof. reflexivity. Qed.

Example validate_by_abbreviation : validate_constellation "uma" = "Ursa Major".
Proof. vm_compute. reflexivity. Qed.

Example validate_by_name : validate_constellation "ORION" = "Orion".
Proof. vm_compute. reflexivity. Qed.

Example catalog_is_listed_in_order :
  sorted (keys CONSTELLATIONS) = keys CONSTELLATIONS.
Proof. vm_compute. reflexivity. Qed.

Example sagittarius_is_complex_dense :
  determine_spatial_distribution "teapot" 10 = "complex_dense".
Proof. vm_compute. reflexivity. Qed.

(* ====================================================================== *)
(** * The claims of the specification *)
(* ====================================================================== *)

(** C1, as the code has it.  For the catalog entry "Orion" (shape
    "hourglass_belt", 10 visual stars) the mapping returns five focal points,
    the belt centre weighted 0.4, the two shoulders 0.35 each and the two
    feet 0.25 each, and the spatial distribution is "linear_arrangement":
    the shape rule for "belt" is tried before the star-count thresholds, so
    no star count changes it. *)
Theorem C1_orion_linear_arrangement :
  forall (P : Platform) (geometry_data : option geometry)
         (width height : option Z) (include_mythology : bool) (w : World),
    lookup "Orion" CONSTELLATIONS = Some Orion
    /\ shape Orion = Some "hourglass_belt"
    /\ star_count_visual Orion = Some 10%Z
    /\ (exists c,
          map_constellation_to_composition "Orion" Orion geometry_data
            width height include_mythology w = (Ok c, w)
          /\ List.length (focal_points c) = 5%nat
          /\ map (fun p => weight p) (focal_points c)
             = [0.4; 0.35; 0.35; 0.25; 0.25]
          /\ spatial_distribution c = "linear_arrangement")
    /\ forall star_count : Z,
         determine_spatial_distribution "hourglass_belt" star_count
         = "linear_arrangement".
Proof.
  intros P geometry_data width height include_mythology w.
  do 3 (split; [reflexivity|]). split.
  - destruct (orion_composition geometry_data width height
                include_mythology w) as (c & E & Hp & Hs).
    exists c. rewrite Hp. repeat split; assumption.
  - intros star_count. reflexivity.
Qed.

(** C1, as the specification words it, fails: the composition of "Orion"
    does not have the spatial distribution "complex_dense". *)
Lemma C1_orion_not_complex_dense :
  ~ exists c w',
      @map_constellation_to_composition CPython_offline "Orion" Orion None
        (Some 1024%Z) (Some 1024%Z) true (fresh_world 0) = (Ok c, w')
      /\ List.length (focal_points c) = 5%nat
      /\ map (fun p => weight p) (focal_points c)
         = [0.4; 0.35; 0.35; 0.25; 0.25]
      /\ spatial_distribution c = "complex_dense".
Proof.
  intros (c & w' & E & _ & _ & Hs).
  destruct (@orion_composition CPython_offline None (Some 1024%Z)
              (Some 1024%Z) true (fresh_world 0)) as (c0 & E0 & _ & Hs0).
  rewrite E0 in E. injection E as <- _. rewrite Hs0 in Hs. discriminate.
Qed.

(** C2.  For every catalog entry and every mythology flag, the composition
    is the same for all canvas widths and heights in [512, 4096] and for
    every supplementary geometry, absent or present, whatever the state of
    the world: it depends on the entry and on the flag only. *)
Theorem C2_canvas_and_geometry_are_inert :
  forall (P : Platform) (name : string) (metadata : Metadata)
         (include_mythology : bool)
         (width height width' height' : Z)
         (geometry_data geometry_data' : option geometry) (w w' : World),
    In (name, metadata) CONSTELLATIONS ->
    valid_canvas width -> valid_canvas height ->
    valid_canvas width' -> valid_canvas height' ->
    fst (map_constellation_to_composition name metadata geometry_data
           (Some width) (Some height) include_mythology w)
    = fst (map_constellation_to_composition name metadata geometry_data'
             (Some width') (Some height') include_mythology w').
Proof.
  intros P name metadata include_mythology width height width' height'
    geometry_data geometry_data' w w' _ _ _ _ _.
  apply map_constellation_to_composition_world.
Qed.

Lemma C2_witness :
  fst (@map_constellation_to_composition CPython_offline "Aquarius" Aquarius
         None (Some 512%Z) (Some 4096%Z) true (fresh_world 0))
  = fst (@map_constellation_to_composition CPython_offline "Aquarius" Aquarius
           (Some "{}") (Some 1920%Z) (Some 1080%Z) true (fresh_world 7)).
Proof.
  apply (C2_canvas_and_geometry_are_inert CPython_offline "Aquarius" Aquarius
           true 512 4096 1920 1080 None (Some "{}")
           (fresh_world 0) (fresh_world 7)).
  - simpl. auto.
  - unfold valid_canvas. lia.
  - unfold valid_canvas. lia.
  - unfold valid_canvas. lia.
  - unfold valid_canvas. lia.
Defined.

(** C3.  The mapping is deterministic: a second call with the same inputs,
    made in the world the first call left behind, returns the same result,
    and the focal points of any brightness and shape tags, "dispersed" ones
    included, are the same from any two states of the generator, which the
    scatter branch reseeds with the constant 42. *)
Theorem C3_mapping_is_deterministic :
  forall (P : Platform) (name : string) (metadata : Metadata)
         (geometry_data : option geometry) (width height : option Z)
         (include_mythology : bool) (w : World),
    let first := map_constellation_to_composition name metadata
                   geometry_data width height include_mythology w in
    let second := map_constellation_to_composition name metadata
                    geometry_data width height include_mythology
                    (snd first) in
    fst second = fst first
    /\ forall (brightness shape : string) (w1 w2 : World),
         fst (generate_focal_points brightness shape width height w1)
         = fst (generate_focal_points brightness shape width height w2).
Proof.
  intros P name metadata geometry_data width height include_mythology w.
  split.
  - apply map_constellation_to_composition_world.
  - intros brightness shape w1 w2. apply generate_focal_points_world.
Qed.

(** C4.  For the catalog entry "Gemini" (brightness "two_bright_stars") the
    mapping returns exactly the two focal points (0.35, 0.5, 0.5) and
    (0.65, 0.5, 0.5), in that order; the balance type is "centered", the
    centre of mass is (0.5, 0.5), and the symmetry is "asymmetric", the
    shape tag "parallel_twins" containing none of "symmetric", "cross" and
    "square". *)
Theorem C4_gemini_two_centered_points :
  forall (P : Platform) (geometry_data : option geometry)
         (width height : option Z) (include_mythology : bool) (w : World),
    lookup "Gemini" CONSTELLATIONS = Some Gemini
    /\ brightness_profile Gemini = Some "two_bright_stars"
    /\ shape Gemini = Some "parallel_twins"
    /\ str_contains "symmetric" "parallel_twins" = false
    /\ str_contains "cross" "parallel_twins" = false
    /\ str_contains "square" "parallel_twins" = false
    /\ exists c,
         map_constellation_to_composition "Gemini" Gemini geometry_data
           width height include_mythology w = (Ok c, w)
         /\ focal_points c
            = [ {| x := 0.35; y := 0.5; weight := 0.5 |};
                {| x := 0.65; y := 0.5; weight := 0.5 |} ]
         /\ balance_type (balance c) = "centered"
         /\ center_of_mass (balance c) = (0.5, 0.5)
         /\ symmetry (balance c) = "asymmetric".
Proof.
  intros P geometry_data width height include_mythology w.
  do 6 (split; [reflexivity|]).
  pose proof (gemini_focal_points width height w) as Hg.
  destruct (calculate_balance_Ok "parallel_twins"
              [ {| x := 0.35; y := 0.5; weight := 0.5 |};
                {| x := 0.65; y := 0.5; weight := 0.5 |} ])
    as (b & Hb & Hc & Hs).
  { unfold py_sum. simpl. lra. }
  assert (Hc' : center_of_mass b = (0.5, 0.5)).
  { rewrite Hc. unfold py_sum. simpl. f_equal; lra. }
  eexists. split.
  - apply (map_constellation_to_composition_Ok "Gemini" Gemini geometry_data
             width height include_mythology w w _ b Hg Hb).
  - split; [reflexivity|]. cbn [balance assemble]. split; [|split].
    + rewrite (calculate_balance_type _ _ _ Hb), Hc'. cbn [fst snd].
      destruct (Rlt_dec (Rabs (0.5 - 0.5)) 0.1) as [_|H]; [reflexivity|].
      exfalso. apply H. apply Rabs_zero_lt. reflexivity.
    + exact Hc'.
    + rewrite Hs. reflexivity.
Qed.

(** C5.  For every record, of the catalog or not, the mapping returns a
    composition with at least one focal point and a positive total weight,
    and the centre of mass in its balance is the weighted average of exactly
    these focal points: the sum of [x * weight] over the sum of [weight],
    and the same for [y]. *)
Theorem C5_center_of_mass_is_weighted_average :
  forall (P : Platform), random_contract P ->
  forall (name : string) (metadata : Metadata)
         (geometry_data : option geometry) (width height : option Z)
         (include_mythology : bool) (w : World),
    exists c w',
      map_constellation_to_composition name metadata geometry_data
        width height include_mythology w = (Ok c, w')
      /\ focal_points c <> []
      /\ 0 < sigma (map (fun p => weight p) (focal_points c))
      /\ center_of_mass (balance c)
         = (weighted_average (fun p => x p) (focal_points c),
            weighted_average (fun p => y p) (focal_points c))
      /\ fst (center_of_mass (balance c))
           * sigma (map (fun p => weight p) (focal_points c))
         = sigma (map (fun p => x p * weight p) (focal_points c))
      /\ snd (center_of_mass (balance c))
           * sigma (map (fun p => weight p) (focal_points c))
         = sigma (map (fun p => y p * weight p) (focal_points c)).
Proof.
  intros P HP name metadata geometry_data width height include_mythology w.
  destruct (map_constellation_to_composition_sound HP name metadata
              geometry_data width height include_mythology w)
    as (points & b & w' & E & Hne & Hall & Hb).
  exists (assemble metadata geometry_data include_mythology points b), w'.
  split; [exact E|]. cbn [balance focal_points assemble].
  pose proof (total_weight_pos points Hne Hall) as Hpos.
  destruct (calculate_balance_Ok (get (shape metadata) "dispersed") points)
    as (b' & Hb' & Hc & _); [lra|].
  rewrite Hb in Hb'. injection Hb' as <-.
  rewrite py_sum_sigma in Hpos.
  assert (Havg : center_of_mass b
                 = (weighted_average (fun p => x p) points,
                    weighted_average (fun p => y p) points)).
  { rewrite Hc. unfold weighted_average. rewrite !py_sum_sigma. reflexivity. }
  split; [exact Hne|]. split; [exact Hpos|]. split; [exact Havg|].
  rewrite Havg. cbn [fst snd]. unfold weighted_average.
  split; field; lra.
Qed.

Lemma C5_witness :
  exists c w',
    @map_constellation_to_composition CPython_offline "Scorpius" Scorpius
      None (Some 1024%Z) (Some 1024%Z) true (fresh_world 0) = (Ok c, w')
    /\ focal_points c <> []
    /\ 0 < sigma (map (fun p => weight p) (focal_points c))
    /\ center_of_mass (balance c)
       = (weighted_average (fun p => x p) (focal_points c),
          weighted_average (fun p => y p) (focal_points c))
    /\ fst (center_of_mass (balance c))
         * sigma (map (fun p => weight p) (focal_points c))
       = sigma (map (fun p => x p * weight p) (focal_points c))
    /\ snd (center_of_mass (balance c))
         * sigma (map (fun p => weight p) (focal_points c))
       = sigma (map (fun p => y p * weight p) (focal_points c)).
Proof.
  exact (C5_center_of_mass_is_weighted_average CPython_offline
           CPython_random_contract "Scorpius" Scorpius None
           (Some 1024%Z) (Some 1024%Z) true (fresh_world 0)).
Defined.

(** C6.  For every record, and for every brightness and shape tag, the
    mapping returns at least one focal point, and every focal point it
    returns has [x] and [y] in [0, 1] and a positive weight; the sine sweep
    and the seeded scatter are no exceptions. *)
Theorem C6_focal_points_are_well_formed :
  forall (P : Platform), random_contract P ->
  forall (name : string) (metadata : Metadata)
         (geometry_data : option geometry) (width height : option Z)
         (include_mythology : bool) (brightness shape : string) (w : World),
    (exists c w',
       map_constellation_to_composition name metadata geometry_data
         width height include_mythology w = (Ok c, w')
       /\ (1 <= List.length (focal_points c))%nat
       /\ Forall (fun p => 0 <= x p <= 1 /\ 0 <= y p <= 1 /\ 0 < weight p)
            (focal_points c))
    /\ (exists points w',
          generate_focal_points brightness shape width height w
          = (Ok points, w')
          /\ (1 <= List.length points)%nat
          /\ Forall (fun p => 0 <= x p <= 1 /\ 0 <= y p <= 1 /\ 0 < weight p)
               points).
Proof.
  intros P HP name metadata geometry_data width height include_mythology
    brightness shape w.
  split.
  - destruct (map_constellation_to_composition_sound HP name metadata
                geometry_data width height include_mythology w)
      as (points & b & w' & E & Hne & Hall & _).
    eexists _, w'. split; [exact E|]. cbn [focal_points assemble].
    split; [|exact Hall].
    destruct points; [congruence|simpl; lia].
  - destruct (generate_focal_points_sound HP brightness shape width height w)
      as (points & w' & E & Hne & Hall).
    exists points, w'. split; [exact E|]. split; [|exact Hall].
    destruct points; [congruence|simpl; lia].
Qed.

Lemma C6_witness :
  (exists c w',
     @map_constellation_to_composition CPython_offline "Aquarius" Aquarius
       None (Some 1024%Z) (Some 1024%Z) true (fresh_world 0) = (Ok c, w')
     /\ (1 <= List.length (focal_points c))%nat
     /\ Forall (fun p => 0 <= x p <= 1 /\ 0 <= y p <= 1 /\ 0 < weight p)
          (focal_points c))
  /\ (exists points w',
        @generate_focal_points CPython_offline "very_bright_red"
          "curved_tail" (Some 1024%Z) (Some 1024%Z) (fresh_world 0)
        = (Ok points, w')
        /\ (1 <= List.length points)%nat
        /\ Forall (fun p => 0 <= x p <= 1 /\ 0 <= y p <= 1 /\ 0 < weight p)
             points).
Proof.
  exact (C6_focal_points_are_well_formed CPython_offline
           CPython_random_contract "Aquarius" Aquarius None
           (Some 1024%Z) (Some 1024%Z) true "very_bright_red" "curved_tail"
           (fresh_world 0)).
Defined.

(** C7.  For every record and canvas the returned list of mythology themes
    has at most five entries, and it is empty when mythology is not
    requested; for every catalog entry it is empty exactly when mythology is
    not requested. *)
Theorem C7_mythology_themes :
  forall (P : Platform), random_contract P ->
  forall (name : string) (metadata : Metadata)
         (geometry_data : option geometry) (width height : option Z)
         (include_mythology : bool) (w : World),
    exists c w',
      map_constellation_to_composition name metadata geometry_data
        width height include_mythology w = (Ok c, w')
      /\ (List.length (mythology_themes c) <= 5)%nat
      /\ (include_mythology = false -> mythology_themes c = [])
      /\ (In (name, metadata) CONSTELLATIONS ->
          (mythology_themes c = [] <-> include_mythology = false)).
Proof.
  intros P HP name metadata geometry_data width height include_mythology w.
  destruct (map_constellation_to_composition_sound HP name metadata
              geometry_data width height include_mythology w)
    as (points & b & w' & E & _).
  eexists _, w'. split; [exact E|]. cbn [mythology_themes assemble].
  split; [|split].
  - destruct include_mythology.
    + apply extract_mythology_themes_length.
    + simpl. lia.
  - intros ->. reflexivity.
  - intros Hin. destruct include_mythology.
    + pose proof catalog_has_themes as H.
      rewrite forallb_forall in H. specialize (H _ Hin).
      unfold has_themes in H. simpl in H.
      destruct (extract_mythology_themes metadata); [discriminate|].
      split; discriminate.
    + split; reflexivity.
Qed.

Lemma C7_witness :
  exists c w',
    @map_constellation_to_composition CPython_offline "Orion" Orion
      None (Some 1024%Z) (Some 1024%Z) true (fresh_world 0) = (Ok c, w')
    /\ (List.length (mythology_themes c) <= 5)%nat
    /\ mythology_themes c <> [].
Proof.
  destruct (C7_mythology_themes CPython_offline CPython_random_contract
              "Orion" Orion None (Some 1024%Z) (Some 1024%Z) true
              (fresh_world 0)) as (c & w' & E & Hlen & _ & Hiff).
  exists c, w'. split; [exact E|]. split; [exact Hlen|].
  intros Hnil. apply Hiff in Hnil.
  - discriminate Hnil.
  - simpl. do 13 right. left. reflexivity.
Defined.

(** C8.  Focal-point rules are tried in the documented order and the first
    match wins: when the shape tag contains both "square" and "triangular",
    and rules 1 to 6 do not match, the result is that of the "square" rule,
    four corner points of equal weight. *)
Theorem C8_square_before_triangular :
  forall (P : Platform) (brightness shape : string)
         (width height : option Z) (w : World),
    str_contains "square" shape = true ->
    str_contains "triangular" shape = true ->
    earlier_rule_matches brightness shape = false ->
    generate_focal_points brightness shape width height w
    = (Ok [ {| x := 0.35; y := 0.35; weight := 0.3 |};
            {| x := 0.65; y := 0.35; weight := 0.3 |};
            {| x := 0.65; y := 0.65; weight := 0.3 |};
            {| x := 0.35; y := 0.65; weight := 0.3 |} ], w).
Proof.
  intros P brightness shape width height w Hsq _ Hearly.
  unfold earlier_rule_matches in Hearly.
  repeat match goal with
         | H : _ || _ = false |- _ =>
             apply orb_false_iff in H; destruct H
         end.
  unfold generate_focal_points.
  repeat match goal with
         | H : str_contains _ _ = _ |- _ => rewrite H; clear H
         end.
  reflexivity.
Qed.

Lemma C8_witness :
  @generate_focal_points CPython_offline "bright" "square_triangular"
    (Some 1024%Z) (Some 1024%Z) (fresh_world 0)
  = (Ok [ {| x := 0.35; y := 0.35; weight := 0.3 |};
          {| x := 0.65; y := 0.35; weight := 0.3 |};
          {| x := 0.65; y := 0.65; weight := 0.3 |};
          {| x := 0.35; y := 0.65; weight := 0.3 |} ], fresh_world 0).
Proof.
  apply (C8_square_before_triangular CPython_offline "bright"
           "square_triangular" (Some 1024%Z) (Some 1024%Z) (fresh_world 0)).
  - vm_compute. reflexivity.
  - vm_compute. reflexivity.
  - vm_compute. reflexivity.
Defined.

(** C9.  A name that equals, case-insensitively, neither the name nor the
    abbreviation of a catalog entry is returned unchanged by the validator,
    and the tool answers it with the not-found text, which lists the names
    of the whole catalog in sorted order; the world is left as it was, so
    no request was made and nothing was mapped. *)
Theorem C9_unresolved_name_is_not_found :
  forall (P : Platform) (v : string) (params : ConstellationCompositionInput)
         (w : World),
    resolves v = false ->
    constellation_name params = validate_constellation v ->
    validate_constellation v = v
    /\ generate_constellation_composition params w
       = (Ok (Text (not_found_text v (sorted (keys CONSTELLATIONS)))), w)
    /\ Permutation (keys CONSTELLATIONS) (sorted (keys CONSTELLATIONS))
    /\ Sorted name_le (sorted (keys CONSTELLATIONS)).
Proof.
  intros P v params w Hv Hname.
  destruct (unresolved_validate v Hv) as [Hval Hlook].
  split; [exact Hval|]. split; [|split].
  - unfold generate_constellation_composition.
    rewrite Hname, Hval, Hlook. reflexivity.
  - apply sorted_Permutation.
  - apply sorted_Sorted.
Qed.

Lemma C9_witness :
  validate_constellation "Pegasuz" = "Pegasuz"
  /\ @generate_constellation_composition CPython_offline
       {| constellation_name := validate_constellation "Pegasuz";
          canvas_width := Some 1024%Z; canvas_height := Some 1024%Z;
          include_mythology := true; response_format := JSON |}
       (fresh_world 0)
     = (Ok (Text (not_found_text "Pegasuz" (sorted (keys CONSTELLATIONS)))),
        fresh_world 0)
  /\ Permutation (keys CONSTELLATIONS) (sorted (keys CONSTELLATIONS))
  /\ Sorted name_le (sorted (keys CONSTELLATIONS)).
Proof.
  apply (C9_unresolved_name_is_not_found CPython_offline "Pegasuz").
  - vm_compute. reflexivity.
  - reflexivity.
Defined.

(** C10.  The centroid is never divided by zero: for every brightness and
    shape tag the focal-point generator returns a list that is not empty and
    whose weights are all positive, so the total weight is positive and
    [calculate_balance] returns a balance instead of raising. *)
Theorem C10_total_weight_is_positive :
  forall (P : Platform), random_contract P ->
  forall (brightness shape shape' : string) (width height : option Z)
         (w : World),
    exists points w',
      generate_focal_points brightness shape width height w = (Ok points, w')
      /\ points <> []
      /\ Forall (fun p => 0 < weight p) points
      /\ 0 < py_sum (map (fun p => weight p) points)
      /\ exists b, calculate_balance shape' points = Ok b.
Proof.
  intros P HP brightness shape shape' width height w.
  destruct (generate_focal_points_sound HP brightness shape width height w)
    as (points & w' & E & Hne & Hall).
  pose proof (total_weight_pos points Hne Hall) as Hpos.
  exists points, w'. split; [exact E|]. split; [exact Hne|].
  split; [|split; [exact Hpos|]].
  - eapply Forall_impl; [|exact Hall]. intros p (_ & _ & Hw). exact Hw.
  - destruct (calculate_balance_Ok shape' points) as (b & Hb & _); [lra|].
    exists b. exact Hb.
Qed.

Lemma C10_witness :
  exists points w',
    @generate_focal_points CPython_offline "moderate" "dispersed_cascade"
      (Some 1024%Z) (Some 1024%Z) (fresh_world 0) = (Ok points, w')
    /\ points <> []
    /\ Forall (fun p => 0 < weight p) points
    /\ 0 < py_sum (map (fun p => weight p) points)
    /\ exists b, calculate_balance "dispersed_cascade" points = Ok b.
Proof.
  exact (C10_total_weight_is_positive CPython_offline CPython_random_contract
           "moderate" "dispersed_cascade" "dispersed_cascade"
           (Some 1024%Z) (Some 1024%Z) (fresh_world 0)).
Defined.

(* ====================================================================== *)
(** * Further properties of the code *)
(* ====================================================================== *)

(** ** Substrings *)

Lemma prefix_append (a q : string) : String.prefix a (a ++ q)%string = true.
Proof.
  induction a as [|c a IH]; simpl.
  - destruct q; reflexivity.
  - destruct (ascii_dec c c) as [_|N]; [exact IH|congruence].
Qed.

Lemma prefix_split (a s : string) :
  String.prefix a s = true -> exists q, s = (a ++ q)%string.
Proof.
  revert s. induction a as [|c a IH]; intros s H.
  - exists s. reflexivity.
  - destruct s as [|d s]; simpl in H; [discriminate|].
    destruct (ascii_dec c d) as [->|_]; [|discriminate].
    destruct (IH s H) as [q ->]. exists q. reflexivity.
Qed.

Lemma append_assoc (a b c : string) :
  ((a ++ b) ++ c = a ++ (b ++ c))%string.
Proof. induction a as [|x a IH]; simpl; [reflexivity|rewrite IH; reflexivity]. Qed.

Lemma str_contains_unfold (sub s : string) :
  str_contains sub s
  = (String.prefix sub s
     || match s with
        | EmptyString => false
        | String _ s' => str_contains sub s'
        end).
Proof. destruct s; reflexivity. Qed.

(** [sub in s] holds exactly when [s] is [p ++ sub ++ q]. *)
Lemma str_contains_spec (sub s : string) :
  str_contains sub s = true <-> exists p q, s = (p ++ sub ++ q)%string.
Proof.
  split.
  - induction s as [|c s IH]; simpl; intros H.
    + destruct sub; [|discriminate].
      exists EmptyString, EmptyString. reflexivity.
    + apply orb_true_iff in H. destruct H as [H|H].
      * destruct (prefix_split sub (String c s) H) as [q E].
        exists EmptyString, q. exact E.
      * destruct (IH H) as (p & q & ->). exists (String c p), q. reflexivity.
  - intros (p & q & ->). induction p as [|c p IH].
    + simpl (EmptyString ++ _)%string.
      rewrite str_contains_unfold, prefix_append. reflexivity.
    + simpl (String c p ++ _)%string.
      rewrite str_contains_unfold, IH. apply orb_true_r.
Qed.

Lemma str_contains_trans (a b s : string) :
  str_contains a b = true -> str_contains b s = true ->
  str_contains a s = true.
Proof.
  intros Hab Hbs.
  apply str_contains_spec in Hab. destruct Hab as (p1 & q1 & ->).
  apply str_contains_spec in Hbs. destruct Hbs as (p2 & q2 & ->).
  apply str_contains_spec. exists (p2 ++ p1)%string, (q1 ++ q2)%string.
  rewrite !append_assoc. reflexivity.
Qed.

Lemma str_contains_refl (s : string) : str_contains s s = true.
Proof.
  apply str_contains_spec. exists EmptyString, EmptyString.
  simpl. induction s as [|c s IH]; simpl; [reflexivity|].
  rewrite <- IH. reflexivity.
Qed.

(** ** Letter case and white space *)

Ltac by_cases_on_ascii c :=
  destruct c as [[] [] [] [] [] [] [] []]; vm_compute; reflexivity.

Lemma lower_ascii_idempotent (c : ascii) :
  lower_ascii (lower_ascii c) = lower_ascii c.
Proof. by_cases_on_ascii c. Qed.

Lemma is_space_lower_ascii (c : ascii) :
  is_space (lower_ascii c) = is_space c.
Proof. by_cases_on_ascii c. Qed.

Lemma comma_lower_ascii (c : ascii) :
  Ascii.eqb (lower_ascii c) ","%char = Ascii.eqb c ","%char.
Proof. by_cases_on_ascii c. Qed.

Lemma str_lower_idempotent (s : string) : str_lower (str_lower s) = str_lower s.
Proof.
  induction s as [|c s IH]; simpl; [reflexivity|].
  rewrite lower_ascii_idempotent, IH. reflexivity.
Qed.

Lemma str_lower_append (a b : string) :
  str_lower (a ++ b) = (str_lower a ++ str_lower b)%string.
Proof. induction a as [|c a IH]; simpl; [reflexivity|rewrite IH; reflexivity]. Qed.

Lemma str_lower_lstrip (s : string) :
  str_lower (str_lstrip s) = str_lstrip (str_lower s).
Proof.
  induction s as [|c s IH]; simpl; [reflexivity|].
  rewrite is_space_lower_ascii. destruct (is_space c); [exact IH|reflexivity].
Qed.

Lemma str_lower_rstrip (s : string) :
  str_lower (str_rstrip s) = str_rstrip (str_lower s).
Proof.
  induction s as [|c s IH]; simpl; [reflexivity|].
  rewrite <- IH, is_space_lower_ascii.
  destruct (str_rstrip s); simpl; [|reflexivity].
  destruct (is_space c); reflexivity.
Qed.

Lemma str_lower_strip (s : string) :
  str_lower (str_strip s) = str_strip (str_lower s).
Proof. unfold str_strip. rewrite str_lower_rstrip, str_lower_lstrip. reflexivity. Qed.

Lemma str_lower_split (s : string) :
  map str_lower (str_split ","%char s) = str_split ","%char (str_lower s).
Proof.
  induction s as [|c s IH]; simpl; [reflexivity|].
  rewrite comma_lower_ascii. destruct (Ascii.eqb c ","%char); simpl.
  - rewrite IH. reflexivity.
  - rewrite <- IH. destruct (str_split ","%char s); reflexivity.
Qed.


Lemma str_lstrip_clean (s : string) : starts_clean (str_lstrip s).
Proof.
  induction s as [|c s IH]; simpl; [exact I|].
  destruct (is_space c) eqn:E; [exact IH|exact E].
Qed.

Lemma str_lstrip_of_clean (s : string) : starts_clean s -> str_lstrip s = s.
Proof. destruct s as [|c s]; simpl; [reflexivity|]. intros ->. reflexivity. Qed.

Lemma str_rstrip_clean (s : string) : starts_clean s -> starts_clean (str_rstrip s).
Proof.
  destruct s as [|c s]; simpl; [trivial|]. intros E.
  destruct (str_rstrip s); [rewrite E|]; exact E.
Qed.

Lemma str_rstrip_idempotent (s : string) :
  str_rstrip (str_rstrip s) = str_rstrip s.
Proof.
  induction s as [|c s IH]; simpl; [reflexivity|].
  destruct (str_rstrip s) as [|d r] eqn:E.
  - destruct (is_space c) eqn:Ec; simpl; [reflexivity|]. rewrite Ec. reflexivity.
  - simpl. simpl in IH. rewrite IH. reflexivity.
Qed.

Lemma str_strip_idempotent (s : string) : str_strip (str_strip s) = str_strip s.
Proof.
  unfold str_strip.
  rewrite (str_lstrip_of_clean (str_rstrip (str_lstrip s))).
  - apply str_rstrip_idempotent.
  - apply str_rstrip_clean, str_lstrip_clean.
Qed.

(** ** Theme extraction *)


Lemma Forall_firstn {A : Type} (P : A -> Prop) (n : nat) (l : list A) :
  Forall P l -> Forall P (firstn n l).
Proof.
  intros H. revert n. induction H as [|a l Ha Hl IH]; intros [|n]; simpl;
    constructor; auto.
Qed.

Lemma fragments_clean (theme : string) :
  Forall clean_theme (map str_strip (str_split ","%char (str_lower theme))).
Proof.
  rewrite <- str_lower_split, map_map. apply Forall_map, Forall_forall.
  intros t _. split.
  - rewrite str_lower_strip, str_lower_idempotent. reflexivity.
  - apply str_strip_idempotent.
Qed.

Lemma Forall_add_tag (themes : list string) (tag : string) (b : bool) :
  clean_theme tag -> Forall clean_theme themes ->
  Forall clean_theme (if b then themes ++ [tag] else themes).
Proof.
  intros Ht Hl. destruct b; [|exact Hl].
  apply Forall_app. split; [exact Hl|]. constructor; [exact Ht|constructor].
Qed.

(** Every theme that [extract_mythology_themes] returns is in lower case and
    has no white space at either end, whatever the record. *)
Theorem themes_are_lower_case_and_trimmed (metadata : Metadata) :
  Forall (fun t => str_lower t = t /\ str_strip t = t)
    (extract_mythology_themes metadata).
Proof.
  change (Forall clean_theme (extract_mythology_themes metadata)).
  unfold extract_mythology_themes, slice_to. apply Forall_firstn.
  repeat (apply Forall_add_tag; [split; vm_compute; reflexivity|]).
  destruct (truthy _); [|constructor].
  apply fragments_clean.
Qed.

(** ** Suggested elements *)


(** Each of the four categories of [generate_suggested_elements] holds three
    or four suggestions, whatever the record and the tags: none is empty. *)
Theorem suggested_elements_are_never_empty
    (metadata : Metadata) (shape brightness : string) :
  let s := generate_suggested_elements metadata shape brightness in
  three_or_four (subjects s) /\ three_or_four (lighting s)
  /\ three_or_four (atmosphere s) /\ three_or_four (color_palette s).
Proof.
  unfold generate_suggested_elements, three_or_four. cbn [subjects lighting atmosphere color_palette].
  repeat split;
    repeat match goal with
           | |- context [if ?c then _ else _] => destruct c
           end; simpl; auto.
Qed.

(** ** Visual flow and spatial distribution *)

(** The flow is "cascading" exactly when the shape tag contains "cascade";
    the second test of that rule, for "dispersed_cascade", can never decide,
    since a string containing it contains "cascade". *)
Theorem cascading_flow_iff_cascade {G : Type}
    (shape : string) (geometry_data : option G) :
  (flow_type (determine_visual_flow shape geometry_data) = "cascading"
   <-> str_contains "cascade" shape = true)
  /\ (str_contains "dispersed_cascade" shape = true ->
      str_contains "cascade" shape = true).
Proof.
  assert (Hsub : str_contains "dispersed_cascade" shape = true ->
                 str_contains "cascade" shape = true).
  { apply str_contains_trans. vm_compute. reflexivity. }
  split; [|exact Hsub]. unfold determine_visual_flow.
  destruct (str_contains "cascade" shape) eqn:E1.
  - simpl. split; reflexivity.
  - destruct (str_contains "dispersed_cascade" shape) eqn:E2.
    + specialize (Hsub eq_refl). discriminate.
    + cbn [orb].
      repeat match goal with
             | |- context [if ?c then _ else _] => destruct c
             end; simpl; split; discriminate.
Qed.


(** [determine_spatial_distribution] returns one of six labels, and when the
    shape tag contains "compact", "dispersed", "cascade", "linear" or "belt"
    the star count has no influence on it. *)
Theorem star_count_is_a_fallback (shape : string) (n m : Z) :
  In (determine_spatial_distribution shape n)
     ["clustered_central"; "scattered_wide"; "linear_arrangement";
      "minimal_sparse"; "complex_dense"; "moderate_distributed"]
  /\ (shape_decides_distribution shape = true ->
      determine_spatial_distribution shape n
      = determine_spatial_distribution shape m).
Proof.
  unfold determine_spatial_distribution, shape_decides_distribution.
  destruct (str_contains "compact" shape);
    destruct (str_contains "dispersed" shape || str_contains "cascade" shape);
    destruct (str_contains "linear" shape || str_contains "belt" shape);
    cbn [orb]; split; try discriminate; try reflexivity;
    try (simpl; tauto).
  destruct (n <=? 5)%Z; [simpl; tauto|].
  destruct (n >=? 10)%Z; simpl; tauto.
Qed.

(** ** The rules of [generate_focal_points], one by one *)

Ltac rewrite_tests :=
  repeat match goal with
         | H : str_contains _ _ = _ |- _ => rewrite H; clear H
         | H : _ || _ = false |- _ =>
             apply orb_false_iff in H; destruct H
         | H : _ || _ = true |- _ => rewrite H; clear H
         end.

Section Rules.
Context {P : Platform}.

(** The sweep, whenever it is reached. *)
Lemma curved_focal_points (brightness shape : string)
    (width height : option Z) (w : World) :
  reaches_curved brightness shape = true ->
  generate_focal_points brightness shape width height w
  = (Ok (map sweep_point (range 7)), w).
Proof.
  unfold reaches_curved, literal_rule_matches, earlier_rule_matches.
  intros H. apply andb_true_iff in H. destruct H as [H1 H2].
  apply negb_true_iff in H1. unfold generate_focal_points.
  rewrite_tests. cbn [orb].
  assert (H6 : INR (7 - 1) = 6) by (simpl; lra).
  rewrite H6. cbv [range seq for_each map sweep_point].
  unfold bind, lift, ret.
  rewrite !py_div_ok by lra. reflexivity.
Qed.

Lemma dispersed_focal_points (brightness shape : string)
    (width height : option Z) (w : World) :
  reaches_dispersed brightness shape = true ->
  generate_focal_points brightness shape width height w
  = for_each (range 6) scatter_body []
      {| rng := seed 42; requests := requests w |}.
Proof.
  unfold reaches_dispersed, literal_rule_matches, earlier_rule_matches.
  intros H. apply andb_true_iff in H. destruct H as [H H3].
  apply andb_true_iff in H. destruct H as [H1 H2].
  apply negb_true_iff in H1. apply negb_true_iff in H2.
  unfold generate_focal_points.
  rewrite_tests. cbn [orb]. reflexivity.
Qed.

Lemma scatter_loop (random_ok : random_contract P)
    (l : list nat) (points : list FocalPoint) (w : World) :
  exists new w',
    for_each l scatter_body points w = (Ok (points ++ new), w')
    /\ List.length new = List.length l
    /\ Forall scattered new
    /\ requests w' = requests w.
Proof.
  revert points w. induction l as [|i l IH]; intros points w.
  - exists [], w. simpl. rewrite app_nil_r. repeat split. constructor.
  - cbn [for_each]. unfold scatter_body at 1.
    unfold random_random, bind at 1 2 3 4, ret.
    pose proof (random_ok (rng w)) as H1.
    destruct (random (rng w)) as [rx g1]. cbn [rng requests].
    pose proof (random_ok g1) as H2.
    destruct (random g1) as [ry g2]. cbn [rng requests].
    pose proof (random_ok g2) as H3.
    destruct (random g2) as [rw g3]. cbn [rng requests fst] in *.
    destruct (IH (points ++ [ {| x := 0.2 + rx * 0.6;
                                 y := 0.2 + ry * 0.6;
                                 weight := 0.2 + rw * 0.2 |} ])
                 {| rng := g3; requests := requests w |})
      as (new & w' & E & Hlen & Hall & Hreq).
    eexists (_ :: new), w'. split; [|split; [|split]].
    + rewrite E, <- app_assoc. reflexivity.
    + simpl. rewrite Hlen. reflexivity.
    + constructor; [|exact Hall]. unfold scattered. simpl. lra.
    + exact Hreq.
Qed.

End Rules.

(** Split on the rule of [generate_focal_points] that fires, when it is
    neither the sweep nor the scatter: the nine literal rules are left. *)
Ltac by_literal_rule :=
  unfold reaches_curved, reaches_dispersed, literal_rule_matches,
    earlier_rule_matches, generate_focal_points;
  repeat match goal with
         | |- context [if ?c then _ else _] => destruct c
         end;
  cbn [orb andb negb]; intros ? ?; try discriminate.

(** ** The sines of the sweep *)

Lemma sqrt_3_bounds : 0 <= sqrt 3 < 2.
Proof.
  split; [apply sqrt_pos|].
  replace 2 with (sqrt (2 * 2)) by (apply sqrt_square; lra).
  apply sqrt_lt_1; lra.
Qed.

Lemma sweep_sines :
  sin (INR 0 / 6 * PI) = 0
  /\ sin (INR 1 / 6 * PI) = 1 / 2
  /\ sin (INR 2 / 6 * PI) = sqrt 3 / 2
  /\ sin (INR 3 / 6 * PI) = 1
  /\ sin (INR 4 / 6 * PI) = sqrt 3 / 2
  /\ sin (INR 5 / 6 * PI) = 1 / 2
  /\ sin (INR 6 / 6 * PI) = 0.
Proof.
  repeat split.
  - replace (INR 0 / 6 * PI) with 0 by (simpl; lra). apply sin_0.
  - replace (INR 1 / 6 * PI) with (PI / 6) by (simpl; lra). apply sin_PI6.
  - replace (INR 2 / 6 * PI) with (PI / 3) by (simpl; lra). apply sin_PI3.
  - replace (INR 3 / 6 * PI) with (PI / 2) by (simpl; lra). apply sin_PI2.
  - replace (INR 4 / 6 * PI) with (2 * (PI / 3)) by (simpl; lra).
    apply sin_2PI3.
  - replace (INR 5 / 6 * PI) with (PI - PI / 6) by (simpl; lra).
    rewrite sin_PI_x. apply sin_PI6.
  - replace (INR 6 / 6 * PI) with PI by (simpl; lra). apply sin_PI.
Qed.

(** ** Balance *)

Lemma calculate_balance_stability (shape : string)
    (points : list FocalPoint) (b : Balance) :
  calculate_balance shape points = Ok b ->
  stability b
  = (if String.eqb (balance_type b) "centered" then "high" else "dynamic").
Proof.
  unfold calculate_balance.
  destruct (py_div _ _) as [cx|]; [|discriminate].
  destruct (py_div _ _) as [cy|]; [|discriminate].
  intros E. injection E as <-. reflexivity.
Qed.

Lemma balance_centered (shape : string) (points : list FocalPoint) :
  py_sum (map (fun p => weight p) points) <> 0 ->
  Rabs (py_sum (map (fun p => x p * weight p) points)
        / py_sum (map (fun p => weight p) points) - 0.5) < 0.1 ->
  Rabs (py_sum (map (fun p => y p * weight p) points)
        / py_sum (map (fun p => weight p) points) - 0.5) < 0.1 ->
  exists b,
    calculate_balance shape points = Ok b
    /\ balance_type b = "centered" /\ stability b = "high".
Proof.
  intros Hw Hx Hy.
  destruct (calculate_balance_Ok shape points Hw) as (b & Hb & Hc & _).
  exists b. split; [exact Hb|].
  assert (Ht : balance_type b = "centered").
  { rewrite (calculate_balance_type _ _ _ Hb), Hc. cbn [fst snd].
    destruct (Rlt_dec _ _); [|contradiction].
    destruct (Rlt_dec _ _); [reflexivity|contradiction]. }
  split; [exact Ht|].
  rewrite (calculate_balance_stability _ _ _ Hb), Ht. reflexivity.
Qed.

Ltac literal_balance :=
  eexists _, _; split; [reflexivity|];
  apply balance_centered;
  [ unfold py_sum; simpl; lra
  | apply Rabs_def1; unfold py_sum; simpl; lra
  | apply Rabs_def1; unfold py_sum; simpl; lra ].

Lemma sweep_balance (shape : string) :
  exists b,
    calculate_balance shape (map sweep_point (range 7)) = Ok b
    /\ balance_type b = "centered" /\ stability b = "high".
Proof.
  destruct sweep_sines as (S0 & S1 & S2 & S3 & S4 & S5 & S6).
  pose proof sqrt_3_bounds as H3.
  apply balance_centered;
    cbv [map range seq sweep_point x y weight py_sum fold_left
         Nat.ltb Nat.leb];
    rewrite ?S0, ?S1, ?S2, ?S3, ?S4, ?S5, ?S6.
  - simpl. lra.
  - apply Rabs_def1; simpl; lra.
  - apply Rabs_def1; simpl; lra.
Qed.

Section Balance.
Context {P : Platform}.

(** Unless the seeded scatter is reached, the focal points are balanced:
    [calculate_balance] returns the balance type "centered" and the
    stability "high" for them, the sine sweep included. *)
Theorem only_the_scatter_can_be_off_centre
    (brightness shape shape' : string) (width height : option Z) (w : World) :
  reaches_dispersed brightness shape = false ->
  exists points w',
    generate_focal_points brightness shape width height w = (Ok points, w')
    /\ exists b,
         calculate_balance shape' points = Ok b
         /\ balance_type b = "centered" /\ stability b = "high".
Proof.
  destruct (reaches_curved brightness shape) eqn:Hc.
  - intros _. rewrite (curved_focal_points _ _ _ _ _ Hc).
    eexists _, _. split; [reflexivity|]. apply sweep_balance.
  - revert Hc. by_literal_rule; literal_balance.
Qed.

End Balance.

Section FocalPointFacts.
Context {P : Platform}.

Ltac literal_count :=
  eexists _, _; split; [reflexivity|];
  split; [simpl; lia|];
  repeat first [apply Forall_nil | apply Forall_cons]; simpl; lra.

(** The generator returns between two and seven focal points, and no weight
    exceeds 1. *)
Theorem between_two_and_seven_points (random_ok : random_contract P)
    (brightness shape : string) (width height : option Z) (w : World) :
  exists points w',
    generate_focal_points brightness shape width height w = (Ok points, w')
    /\ (2 <= List.length points <= 7)%nat
    /\ Forall (fun p => weight p <= 1) points.
Proof.
  destruct (reaches_curved brightness shape) eqn:Hc;
    [|destruct (reaches_dispersed brightness shape) eqn:Hd].
  - rewrite (curved_focal_points _ _ _ _ _ Hc).
    eexists _, _. split; [reflexivity|]. split; [simpl; lia|].
    cbv [map range seq sweep_point Nat.ltb Nat.leb].
    repeat first [apply Forall_nil | apply Forall_cons]; simpl; lra.
  - rewrite (dispersed_focal_points _ _ _ _ _ Hd).
    destruct (scatter_loop random_ok (range 6) []
                {| rng := seed 42; requests := requests w |})
      as (new & w' & E & Hlen & Hall & _).
    exists new, w'. split; [exact E|]. split.
    + rewrite Hlen. simpl. lia.
    + eapply Forall_impl; [|exact Hall].
      intros p (_ & _ & Hw). lra.
  - revert Hc Hd. by_literal_rule; literal_count.
Qed.

(** When the seeded scatter is reached it returns exactly six points, with
    coordinates in [[0.2, 0.8)] and weights in [[0.2, 0.4)]. *)
Theorem scatter_stays_in_its_box (random_ok : random_contract P)
    (brightness shape : string) (width height : option Z) (w : World) :
  reaches_dispersed brightness shape = true ->
  exists points w',
    generate_focal_points brightness shape width height w = (Ok points, w')
    /\ List.length points = 6%nat
    /\ Forall (fun p => 0.2 <= x p < 0.8 /\ 0.2 <= y p < 0.8
                        /\ 0.2 <= weight p < 0.4) points.
Proof.
  intros Hd. rewrite (dispersed_focal_points _ _ _ _ _ Hd).
  destruct (scatter_loop random_ok (range 6) []
              {| rng := seed 42; requests := requests w |})
    as (new & w' & E & Hlen & Hall & _).
  exists new, w'. split; [exact E|]. split; [exact Hlen|exact Hall].
Qed.

Lemma sweep_point_box (i : nat) :
  (i <= 6)%nat ->
  0.2 <= x (sweep_point i) <= 0.8 /\ 0.5 <= y (sweep_point i) <= 0.7.
Proof.
  intros Hi. unfold sweep_point. cbn [x y].
  assert (H0 : 0 <= INR i) by apply pos_INR.
  assert (H6 : INR i <= 6).
  { replace 6 with (INR 6) by (simpl; lra). apply le_INR. exact Hi. }
  pose proof (SIN_bound (INR i / 6 * PI)) as Hs.
  assert (Hp : 0 <= sin (INR i / 6 * PI)).
  { pose proof PI_RGT_0 as Hpi. apply sin_ge_0; nra. }
  lra.
Qed.

(** When the sweep is reached the generator returns the seven points of the
    analytic formula and leaves the world alone; they lie between
    x = 0.2 and x = 0.8 and between y = 0.5 and y = 0.7, starting at
    (0.2, 0.5), peaking at (0.5, 0.7) and ending at (0.8, 0.5). *)
Theorem sweep_follows_the_sine (brightness shape : string)
    (width height : option Z) (w : World) :
  reaches_curved brightness shape = true ->
  generate_focal_points brightness shape width height w
  = (Ok (map sweep_point (range 7)), w)
  /\ Forall (fun p => 0.2 <= x p <= 0.8 /\ 0.5 <= y p <= 0.7)
       (map sweep_point (range 7))
  /\ sweep_point 0 = {| x := 0.2; y := 0.5; weight := 0.4 |}
  /\ sweep_point 3 = {| x := 0.5; y := 0.7; weight := 0.2 |}
  /\ sweep_point 6 = {| x := 0.8; y := 0.5; weight := 0.2 |}.
Proof.
  intros Hc. split; [apply curved_focal_points; exact Hc|]. split.
  - apply Forall_map, Forall_forall. intros i Hi.
    unfold range in Hi. apply in_seq in Hi. apply sweep_point_box. lia.
  - destruct sweep_sines as (S0 & _ & _ & S3 & _ & _ & S6).
    unfold sweep_point. rewrite S0, S3, S6. cbn [Nat.ltb Nat.leb].
    repeat split; f_equal; simpl; lra.
Qed.

(** ** What the generator does to the world *)

(** The generator of focal points never makes a request; it leaves the world
    as it was unless the scatter is reached, and then it leaves the
    generator of the [random] module in one and the same state, whatever
    state it was in before. *)
Theorem only_the_scatter_touches_the_generator
    (brightness shape : string) (width height : option Z) (w1 w2 : World) :
  requests (snd (generate_focal_points brightness shape width height w1))
  = requests w1
  /\ (reaches_dispersed brightness shape = false ->
      snd (generate_focal_points brightness shape width height w1) = w1)
  /\ (reaches_dispersed brightness shape = true ->
      rng (snd (generate_focal_points brightness shape width height w1))
      = rng (snd (generate_focal_points brightness shape width height w2))).
Proof.
  split; [apply generate_focal_points_requests|]. split.
  - destruct (reaches_curved brightness shape) eqn:Hc.
    + intros _. rewrite (curved_focal_points _ _ _ _ _ Hc). reflexivity.
    + revert Hc. by_literal_rule; reflexivity.
  - intros Hd. rewrite !(dispersed_focal_points _ _ _ _ _ Hd).
    apply (for_each_related same_rng); [|reflexivity].
    intros s a v1 v2 Hv. unfold same_rng in *.
    unfold scatter_body, bind, random_random, ret. rewrite Hv.
    destruct (random (rng v2)) as [r1 g1]. cbn [rng].
    destruct (random g1) as [r2 g2]. cbn [rng].
    destruct (random g2) as [r3 g3]. cbn [rng fst snd].
    split; reflexivity.
Qed.

End FocalPointFacts.

(** ** The centroid *)

Lemma sigma_weighted (coord : FocalPoint -> R) (points : list FocalPoint) :
  Forall (fun p => 0 <= coord p <= 1 /\ 0 < weight p) points ->
  0 <= sigma (map (fun p => coord p * weight p) points)
    <= sigma (map (fun p => weight p) points).
Proof.
  induction 1 as [|p l [Hc Hw] Hl IH]; simpl.
  - lra.
  - nra.
Qed.

Lemma quotient_in_unit (a b : R) : 0 <= a <= b -> 0 < b -> 0 <= a / b <= 1.
Proof.
  intros Ha Hb. unfold Rdiv.
  pose proof (Rinv_0_lt_compat b Hb) as Hi.
  assert (Hbi : b * / b = 1) by (apply Rinv_r; lra).
  nra.
Qed.

(** In the real-number model: for focal points on the canvas with positive
    weights, and at least one of them, [calculate_balance] returns, and the
    centre of mass lies on the canvas too. *)
Lemma centroid_in_unit_square (shape : string) (points : list FocalPoint) :
  points <> [] -> Forall well_formed points ->
  exists b,
    calculate_balance shape points = Ok b
    /\ 0 <= fst (center_of_mass b) <= 1
    /\ 0 <= snd (center_of_mass b) <= 1.
Proof.
  intros Hne Hall.
  pose proof (total_weight_pos points Hne Hall) as Hpos.
  destruct (calculate_balance_Ok shape points) as (b & Hb & Hc & _); [lra|].
  exists b. split; [exact Hb|]. rewrite Hc. cbn [fst snd].
  rewrite !py_sum_sigma. rewrite py_sum_sigma in Hpos. split.
  - apply quotient_in_unit; [|exact Hpos]. apply sigma_weighted.
    eapply Forall_impl; [|exact Hall]. intros p (Hx & _ & Hw). auto.
  - apply quotient_in_unit; [|exact Hpos]. apply sigma_weighted.
    eapply Forall_impl; [|exact Hall]. intros p (_ & Hy & Hw). auto.
Qed.

(** For every record, canvas and geometry, the mapping returns a composition
    whose focal points are the ones that [generate_focal_points] produced,
    at least one of them, and whose centre of mass lies on the canvas. *)
Theorem centre_of_mass_is_on_the_canvas {P : Platform}
    (random_ok : random_contract P)
    (name : string) (metadata : Metadata) (geometry_data : option geometry)
    (width height : option Z) (include_mythology : bool) (w : World) :
  exists c w',
    map_constellation_to_composition name metadata geometry_data
      width height include_mythology w = (Ok c, w')
    /\ fst (generate_focal_points
              (get (brightness_profile metadata) "moderate")
              (get (shape metadata) "dispersed") width height w)
       = Ok (focal_points c)
    /\ focal_points c <> []
    /\ 0 <= fst (center_of_mass (balance c)) <= 1
    /\ 0 <= snd (center_of_mass (balance c)) <= 1.
Proof.
  destruct (generate_focal_points_sound random_ok
              (get (brightness_profile metadata) "moderate")
              (get (shape metadata) "dispersed") width height w)
    as (points & w' & Hg & Hne & Hall).
  destruct (centroid_in_unit_square (get (shape metadata) "dispersed")
              points Hne Hall) as (b & Hb & Hx & Hy).
  exists (assemble metadata geometry_data include_mythology points b), w'.
  split; [apply map_constellation_to_composition_Ok; assumption|].
  rewrite Hg. cbn [assemble focal_points balance fst].
  split; [reflexivity|]. split; [exact Hne|]. split; assumption.
Qed.

(** ** Name resolution *)

Lemma validate_constellation_resolve (v : string) :
  validate_constellation v
  = match resolve_lower (str_lower v) with
    | Some name => name
    | None => v
    end.
Proof.
  unfold validate_constellation, resolve_lower.
  destruct (find _ (keys CONSTELLATIONS)); [reflexivity|].
  destruct (find _ CONSTELLATIONS) as [[name m]|]; reflexivity.
Qed.

Lemma catalog_resolves_to_itself :
  forallb resolves_to_itself CONSTELLATIONS = true.
Proof. vm_compute. reflexivity. Qed.

Lemma catalog_lookup (name : string) (metadata : Metadata) :
  In (name, metadata) CONSTELLATIONS ->
  lookup name CONSTELLATIONS = Some metadata.
Proof.
  intros Hin. unfold CONSTELLATIONS in Hin. simpl in Hin.
  repeat (destruct Hin as [Hin|Hin];
          [injection Hin as <- <-; reflexivity|]).
  contradiction.
Qed.

Lemma lookup_In {V : Type} (k : string) (d : list (string * V)) (v : V) :
  lookup k d = Some v -> In (k, v) d.
Proof.
  induction d as [|[k' v'] d IH]; simpl; [discriminate|].
  destruct (String.eqb k k') eqn:E.
  - apply String.eqb_eq in E. subst k'. intros [= ->]. left. reflexivity.
  - intros H. right. apply IH. exact H.
Qed.

Lemma validate_case_insensitive (v name : string) (metadata : Metadata) :
  In (name, metadata) CONSTELLATIONS ->
  str_lower v = str_lower name \/ str_lower v = str_lower (abbr metadata) ->
  validate_constellation v = name.
Proof.
  intros Hin Hv.
  pose proof catalog_resolves_to_itself as H.
  rewrite forallb_forall in H. specialize (H _ Hin).
  unfold resolves_to_itself in H. cbn [fst snd] in H.
  rewrite validate_constellation_resolve.
  destruct (resolve_lower (str_lower name)) as [n1|] eqn:E1;
    [|discriminate].
  destruct (resolve_lower (str_lower (abbr metadata))) as [n2|] eqn:E2;
    [|discriminate].
  apply andb_true_iff in H. destruct H as [H1 H2].
  apply String.eqb_eq in H1. apply String.eqb_eq in H2. subst n1 n2.
  destruct Hv as [-> | ->]; [rewrite E1|rewrite E2]; reflexivity.
Qed.

(** The name and the abbreviation of a catalog entry, in any letter case,
    are validated to the name of that entry, under which the catalog holds
    it. *)
Theorem any_letter_case_resolves
    (v name : string) (metadata : Metadata) :
  In (name, metadata) CONSTELLATIONS ->
  str_lower v = str_lower name \/ str_lower v = str_lower (abbr metadata) ->
  validate_constellation v = name
  /\ lookup (validate_constellation v) CONSTELLATIONS = Some metadata.
Proof.
  intros Hin Hv.
  pose proof (validate_case_insensitive v name metadata Hin Hv) as Hname.
  split; [exact Hname|]. rewrite Hname. apply catalog_lookup. exact Hin.
Qed.

Lemma resolves_resolve_lower (v : string) :
  resolves v = true ->
  exists name metadata,
    resolve_lower (str_lower v) = Some name
    /\ In (name, metadata) CONSTELLATIONS
    /\ (str_lower v = str_lower name
        \/ str_lower v = str_lower (abbr metadata)).
Proof.
  intros H. unfold resolves in H. apply existsb_exists in H.
  destruct H as ([k m] & Hin & Hm). cbn [fst snd] in Hm.
  unfold resolve_lower.
  destruct (find (fun name => String.eqb (str_lower v) (str_lower name))
                 (keys CONSTELLATIONS)) as [n|] eqn:F1.
  - apply find_some in F1. destruct F1 as [Hn E]. apply String.eqb_eq in E.
    unfold keys in Hn. apply in_map_iff in Hn.
    destruct Hn as ([n' m'] & <- & Hin').
    exists n', m'. auto.
  - destruct (find (fun item => String.eqb (str_lower v)
                                  (str_lower (abbr (snd item))))
                   CONSTELLATIONS) as [[n m']|] eqn:F2.
    + apply find_some in F2. destruct F2 as [Hin' E].
      apply String.eqb_eq in E. exists n, m'. auto.
    + exfalso. apply orb_true_iff in Hm. destruct Hm as [Hm|Hm].
      * assert (Hk : String.eqb (str_lower v) (str_lower k) = false).
        { apply (find_none _ _ F1 k). unfold keys. apply in_map_iff.
          exists (k, m). auto. }
        rewrite Hm in Hk. discriminate Hk.
      * assert (Hk : String.eqb (str_lower v) (str_lower (abbr m)) = false).
        { apply (find_none _ _ F2 (k, m) Hin). }
        rewrite Hm in Hk. discriminate Hk.
Qed.

Lemma resolved_validate (v : string) :
  resolves v = true ->
  exists metadata,
    In (validate_constellation v, metadata) CONSTELLATIONS
    /\ (str_lower v = str_lower (validate_constellation v)
        \/ str_lower v = str_lower (abbr metadata)).
Proof.
  intros H. destruct (resolves_resolve_lower v H) as (n & m & E & Hin & Hv).
  rewrite validate_constellation_resolve, E. exists m. auto.
Qed.

(** [validate_constellation] returns a key of the catalog whose name or
    abbreviation equals the input case-insensitively, or else the input
    itself, which is then no key; validating twice is validating once. *)
Theorem validator_returns_a_key_or_its_input (v : string) :
  (resolves v = true ->
   exists metadata,
     lookup (validate_constellation v) CONSTELLATIONS = Some metadata
     /\ (str_lower v = str_lower (validate_constellation v)
         \/ str_lower v = str_lower (abbr metadata)))
  /\ (resolves v = false ->
      validate_constellation v = v /\ lookup v CONSTELLATIONS = None)
  /\ validate_constellation (validate_constellation v)
     = validate_constellation v.
Proof.
  split; [|split].
  - intros H. destruct (resolved_validate v H) as (m & Hin & Hv). exists m.
    split; [apply catalog_lookup; exact Hin|exact Hv].
  - apply unresolved_validate.
  - destruct (resolves v) eqn:H.
    + destruct (resolved_validate v H) as (m & Hin & _).
      apply (validate_case_insensitive _ _ m Hin). left. reflexivity.
    + destruct (unresolved_validate v H) as [-> _].
      apply unresolved_validate. exact H.
Qed.

Section Tool.
Context {P : Platform}.

(** Turning the mythology flag off empties the themes and changes nothing
    else of the composition. *)
Theorem mythology_flag_changes_only_the_themes
    (random_ok : random_contract P)
    (name : string) (metadata : Metadata) (geometry_data : option geometry)
    (width height : option Z) (w1 w2 : World) :
  exists c w1' w2',
    map_constellation_to_composition name metadata geometry_data
      width height true w1 = (Ok c, w1')
    /\ map_constellation_to_composition name metadata geometry_data
         width height false w2
       = (Ok {| focal_points := focal_points c;
                visual_flow := visual_flow c;
                balance := balance c;
                spatial_distribution := spatial_distribution c;
                mythology_themes := [];
                suggested_elements := suggested_elements c |}, w2')
    /\ mythology_themes c = extract_mythology_themes metadata.
Proof.
  destruct (generate_focal_points_sound random_ok
              (get (brightness_profile metadata) "moderate")
              (get (shape metadata) "dispersed") width height w1)
    as (p1 & v1 & G1 & Hne & Hall).
  destruct (generate_focal_points_sound random_ok
              (get (brightness_profile metadata) "moderate")
              (get (shape metadata) "dispersed") width height w2)
    as (p2 & v2 & G2 & _).
  pose proof (generate_focal_points_world
                (get (brightness_profile metadata) "moderate")
                (get (shape metadata) "dispersed")
                width height width height w1 w2) as Hg.
  rewrite G1, G2 in Hg. cbn [fst] in Hg. injection Hg as <-.
  destruct (calculate_balance_Ok (get (shape metadata) "dispersed") p1)
    as (b & Hb & _).
  { pose proof (total_weight_pos p1 Hne Hall). lra. }
  exists (assemble metadata geometry_data true p1 b), v1, v2.
  split; [|split].
  - apply map_constellation_to_composition_Ok; assumption.
  - apply (map_constellation_to_composition_Ok name metadata geometry_data
             width height false w2 v2 p1 b G2 Hb).
  - reflexivity.
Qed.

(** What the composition tool returns does not depend on the state of the
    generator nor on what the network answered or answers. *)
Theorem response_ignores_the_world
    (params : ConstellationCompositionInput) (w1 w2 : World) :
  fst (generate_constellation_composition params w1)
  = fst (generate_constellation_composition params w2).
Proof.
  unfold generate_constellation_composition.
  destruct (lookup (constellation_name params) CONSTELLATIONS) as [md|];
    [|reflexivity].
  unfold bind at 1 3. unfold fetch_constellation_data.
  pose proof (map_constellation_to_composition_world
                (constellation_name params) (constellation_name params) md
                (network (requests w1) (abbr md))
                (network (requests w2) (abbr md))
                (canvas_width params) (canvas_height params)
                (canvas_width params) (canvas_height params)
                (include_mythology params)
                {| rng := rng w1; requests := requests w1 ++ [abbr md] |}
                {| rng := rng w2; requests := requests w2 ++ [abbr md] |})
    as Hm.
  unfold bind.
  destruct (map_constellation_to_composition _ _ _ _ _ _ _) as [r1 v1].
  destruct (map_constellation_to_composition _ _ _ _ _ _ _) as [r2 v2].
  simpl in Hm. subst r2. destruct r1 as [c|e]; [|reflexivity].
  destruct (response_format params); reflexivity.
Qed.

Lemma found_name_document
    (random_ok : random_contract P)
    (params : ConstellationCompositionInput) (metadata : Metadata)
    (w : World) :
  lookup (constellation_name params) CONSTELLATIONS = Some metadata ->
  exists c w',
    generate_constellation_composition params w
    = (Ok (document params metadata c), w')
    /\ fst (map_constellation_to_composition (constellation_name params)
              metadata None (canvas_width params) (canvas_height params)
              (include_mythology params) w) = Ok c
    /\ requests w' = requests w ++ [abbr metadata].
Proof.
  intros Hl.
  pose proof (found_name_requests_geometry params metadata w Hl) as Hreq.
  unfold generate_constellation_composition in *. rewrite Hl in *.
  unfold bind at 1 in Hreq. unfold bind at 1.
  unfold fetch_constellation_data in *.
  set (g := network (requests w) (abbr metadata)) in *.
  set (v := {| rng := rng w; requests := requests w ++ [abbr metadata] |})
    in *.
  destruct (map_constellation_to_composition_sound random_ok
              (constellation_name params) metadata g
              (canvas_width params) (canvas_height params)
              (include_mythology params) v)
    as (points & b & w' & E & _).
  pose proof (map_constellation_to_composition_world
                (constellation_name params) (constellation_name params)
                metadata g None
                (canvas_width params) (canvas_height params)
                (canvas_width params) (canvas_height params)
                (include_mythology params) v w) as Hm.
  rewrite E in Hm. cbn [fst] in Hm.
  unfold bind at 1 in Hreq. unfold bind at 1. rewrite E in *.
  eexists _, w'. split; [|split].
  - unfold document. destruct (response_format params); reflexivity.
  - symmetry. exact Hm.
  - destruct (response_format params); exact Hreq.
Qed.

(** Every input that equals a name or an abbreviation of the catalog, in any
    letter case, is answered with a document for that entry. *)
Theorem any_resolving_input_is_answered
    (random_ok : random_contract P)
    (v : string) (params : ConstellationCompositionInput) (w : World) :
  resolves v = true ->
  constellation_name params = validate_constellation v ->
  exists metadata c w',
    lookup (validate_constellation v) CONSTELLATIONS = Some metadata
    /\ (str_lower v = str_lower (validate_constellation v)
        \/ str_lower v = str_lower (abbr metadata))
    /\ generate_constellation_composition params w
       = (Ok (document params metadata c), w').
Proof.
  intros Hv Hname.
  destruct (resolved_validate v Hv) as (metadata & Hin & Hcase).
  pose proof (catalog_lookup _ _ Hin) as Hl.
  assert (Hl' : lookup (constellation_name params) CONSTELLATIONS
                = Some metadata) by (rewrite Hname; exact Hl).
  destruct (found_name_document random_ok params metadata w Hl')
    as (c & w' & E & _).
  exists metadata, c, w'. auto.
Qed.

(** The composition tool never raises before rendering.  When the name is
    no key of the catalog it hands out the not-found text; otherwise it hands
    out the document of the composition that the mapping gives without any
    geometry. *)
Theorem composition_tool_never_raises
    (random_ok : random_contract P)
    (params : ConstellationCompositionInput) (w : World) :
  exists response w',
    generate_constellation_composition params w = (Ok response, w')
    /\ (lookup (constellation_name params) CONSTELLATIONS = None ->
        response
        = Text (not_found_text (constellation_name params)
                  (sorted (keys CONSTELLATIONS))))
    /\ (forall metadata,
          lookup (constellation_name params) CONSTELLATIONS = Some metadata ->
          exists c,
            response = document params metadata c
            /\ fst (map_constellation_to_composition
                      (constellation_name params) metadata None
                      (canvas_width params) (canvas_height params)
                      (include_mythology params) w) = Ok c).
Proof.
  destruct (lookup (constellation_name params) CONSTELLATIONS) as [md|] eqn:Hl.
  - destruct (found_name_document random_ok params md w Hl)
      as (c & w' & E & Hc & _).
    exists (document params md c), w'. split; [exact E|].
    split; [discriminate|]. intros metadata [= <-]. exists c. auto.
  - unfold generate_constellation_composition. rewrite Hl.
    eexists _, w. split; [reflexivity|]. split; [|discriminate].
    intros _. reflexivity.
Qed.

End Tool.

(** ** Search *)

Lemma fold_left_collect {A B : Type} (f : A -> bool) (g : A -> B)
    (l : list A) (acc : list B) :
  fold_left (fun results item =>
               if f item then results ++ [g item] else results) l acc
  = acc ++ map g (filter f l).
Proof.
  revert acc. induction l as [|a l IH]; intros acc; simpl.
  - rewrite app_nil_r. reflexivity.
  - rewrite IH. destruct (f a); simpl; [|reflexivity].
    rewrite <- app_assoc. reflexivity.
Qed.

Lemma search_results_filter
    (params : ConstellationSearchInput.t) (catalog : list (string * Metadata)) :
  search_results params catalog
  = map (fun item => search_result (fst item) (snd item))
        (filter (fun item => search_match params (fst item) (snd item))
                catalog).
Proof. unfold search_results. rewrite fold_left_collect. reflexivity. Qed.

Lemma In_search_results
    (params : ConstellationSearchInput.t) (catalog : list (string * Metadata))
    (r : SearchResult.t) :
  In r (search_results params catalog) <->
  exists name data,
    In (name, data) catalog
    /\ search_match params name data = true
    /\ r = search_result name data.
Proof.
  rewrite search_results_filter, in_map_iff. split.
  - intros ([name data] & <- & Hin). apply filter_In in Hin.
    destruct Hin as [Hin Hm]. exists name, data. auto.
  - intros (name & data & Hin & Hm & ->). exists (name, data).
    split; [reflexivity|]. apply filter_In. auto.
Qed.

Lemma search_match_criteria
    (params : ConstellationSearchInput.t) (name : string) (data : Metadata) :
  search_match params name data
  = criterion (ConstellationSearchInput.query params) (searchable name data)
    && criterion (ConstellationSearchInput.shape_type params)
         (get (shape data) "")
    && criterion (ConstellationSearchInput.brightness params)
         (get (brightness_profile data) "").
Proof.
  unfold search_match, criterion, searchable, truthy_optional.
  destruct (ConstellationSearchInput.query params) as [q|];
    destruct (ConstellationSearchInput.shape_type params) as [s|];
    destruct (ConstellationSearchInput.brightness params) as [b|];
    cbn [get];
    repeat match goal with
           | |- context [truthy ?t] => destruct (truthy t)
           end;
    cbn [negb orb andb];
    repeat match goal with
           | |- context [str_contains ?a ?b] => destruct (str_contains a b)
           end; reflexivity.
Qed.

(** The loop of the search returns, in the order of the catalog and each
    one once, the entries for which each of the three criteria holds, where
    a criterion that is absent or empty always holds. *)
Theorem search_returns_the_matches_in_catalog_order
    (params : ConstellationSearchInput.t) (catalog : list (string * Metadata)) :
  search_results params catalog
  = map (fun item => search_result (fst item) (snd item))
        (filter (fun item =>
                   criterion (ConstellationSearchInput.query params)
                     (searchable (fst item) (snd item))
                   && criterion (ConstellationSearchInput.shape_type params)
                        (get (shape (snd item)) "")
                   && criterion (ConstellationSearchInput.brightness params)
                        (get (brightness_profile (snd item)) ""))
                catalog)
  /\ forall r,
       In r (search_results params catalog) <->
       exists name data,
         In (name, data) catalog
         /\ search_match params name data = true
         /\ r = search_result name data.
Proof.
  split.
  - rewrite search_results_filter. f_equal. apply filter_ext.
    intros [name data]. apply search_match_criteria.
  - intros r. apply In_search_results.
Qed.

Lemma truthy_lower (s : string) : truthy (str_lower s) = truthy s.
Proof. destruct s; reflexivity. Qed.

Lemma criterion_lower (c c' : option string) (text : string) :
  option_map str_lower c = option_map str_lower c' ->
  criterion c text = criterion c' text.
Proof.
  unfold criterion, truthy_optional.
  destruct c as [s|], c' as [s'|]; simpl; try discriminate; [|reflexivity].
  intros [= E]. rewrite <- (truthy_lower s), <- (truthy_lower s'), E.
  reflexivity.
Qed.

(** Two searches whose criteria are equal up to letter case return the
    same response. *)
Theorem search_ignores_letter_case
    (params params' : ConstellationSearchInput.t) :
  option_map str_lower (ConstellationSearchInput.query params)
  = option_map str_lower (ConstellationSearchInput.query params') ->
  option_map str_lower (ConstellationSearchInput.shape_type params)
  = option_map str_lower (ConstellationSearchInput.shape_type params') ->
  option_map str_lower (ConstellationSearchInput.brightness params)
  = option_map str_lower (ConstellationSearchInput.brightness params') ->
  ConstellationSearchInput.response_format params
  = ConstellationSearchInput.response_format params' ->
  search_constellations params = search_constellations params'.
Proof.
  intros Hq Hs Hb Hf.
  assert (E : search_results params CONSTELLATIONS
              = search_results params' CONSTELLATIONS).
  { rewrite !search_results_filter.
    f_equal. apply filter_ext. intros [name data]. cbn [fst snd].
    rewrite !search_match_criteria.
    rewrite (criterion_lower _ _ _ Hq), (criterion_lower _ _ _ Hs),
      (criterion_lower _ _ _ Hb). reflexivity. }
  unfold search_constellations. rewrite E, Hf. reflexivity.
Qed.

(** A search whose three criteria are absent or empty returns the whole
    catalog, 22 entries, in its order. *)
Theorem empty_criteria_return_the_catalog
    (params : ConstellationSearchInput.t) :
  truthy_optional (ConstellationSearchInput.query params) = false ->
  truthy_optional (ConstellationSearchInput.shape_type params) = false ->
  truthy_optional (ConstellationSearchInput.brightness params) = false ->
  search_results params CONSTELLATIONS
  = map (fun item => search_result (fst item) (snd item)) CONSTELLATIONS
  /\ List.length (search_results params CONSTELLATIONS) = 22%nat.
Proof.
  intros Hq Hs Hb.
  assert (E : search_results params CONSTELLATIONS
              = map (fun item => search_result (fst item) (snd item))
                  CONSTELLATIONS).
  { rewrite search_results_filter.
    f_equal. rewrite <- (filter_true CONSTELLATIONS) at 2.
    apply filter_ext. intros [name data]. cbn [fst snd].
    rewrite search_match_criteria. unfold criterion.
    rewrite Hq, Hs, Hb. reflexivity. }
  split; [exact E|]. rewrite E, length_map. reflexivity.
Qed.

(** Searching for the name of a catalog entry, in any letter case, returns
    that entry among the results. *)
Theorem a_catalog_name_finds_its_entry
    (q name : string) (data : Metadata) :
  In (name, data) CONSTELLATIONS ->
  str_lower q = str_lower name ->
  In (search_result name data)
     (search_results
        {| ConstellationSearchInput.query := Some q;
           ConstellationSearchInput.shape_type := None;
           ConstellationSearchInput.brightness := None;
           ConstellationSearchInput.response_format := JSON |}
        CONSTELLATIONS).
Proof.
  intros Hin Hq.
  apply In_search_results.
  exists name, data. split; [exact Hin|]. split; [|reflexivity].
  rewrite search_match_criteria. unfold criterion. cbn.
  rewrite !andb_true_r. apply orb_true_iff. right.
  rewrite Hq. unfold searchable. rewrite str_lower_append.
  apply str_contains_spec. exists EmptyString. eexists. reflexivity.
Qed.

(** ** The markdown of the search results *)

Lemma append_nil_r (s : string) : (s ++ "")%string = s.
Proof. induction s as [|c s IH]; simpl; [reflexivity|rewrite IH; reflexivity]. Qed.

Lemma format_search_results_from_Some
    (results : list SearchResult.t) (i : nat) (md : string) :
  Forall (fun r => SearchResult.shape r <> None
                   /\ SearchResult.brightness_profile r <> None) results ->
  exists rest, format_search_results_from i results md
               = Some (md ++ rest)%string.
Proof.
  intros H. revert i md. induction H as [|r l [Hs Hb] Hl IH]; intros i md.
  - exists EmptyString. simpl. rewrite append_nil_r. reflexivity.
  - cbn [format_search_results_from].
    destruct (SearchResult.shape r) as [sh|]; [|congruence].
    destruct (SearchResult.brightness_profile r) as [bp|]; [|congruence].
    match goal with
    | |- context [format_search_results_from (S i) l ?m] =>
        destruct (IH (S i) m) as [rest ->]
    end.
    rewrite !append_assoc. eexists. reflexivity.
Qed.

Lemma catalog_has_tags : forallb has_tags CONSTELLATIONS = true.
Proof. vm_compute. reflexivity. Qed.

Lemma search_results_have_tags (params : ConstellationSearchInput.t) :
  Forall (fun r => SearchResult.shape r <> None
                   /\ SearchResult.brightness_profile r <> None)
    (search_results params CONSTELLATIONS).
Proof.
  apply Forall_forall. intros r Hr.
  apply In_search_results in Hr.
  destruct Hr as (name & data & Hin & _ & ->).
  pose proof catalog_has_tags as H. rewrite forallb_forall in H.
  specialize (H _ Hin). unfold has_tags in H. cbn [snd] in H.
  unfold search_result. cbn.
  destruct (shape data); [|discriminate].
  destruct (brightness_profile data); [|discriminate].
  split; discriminate.
Qed.

(** The search never raises: without a match it returns the fixed message,
    otherwise the results with their count, or a markdown text that starts
    with the number of results. *)
Theorem search_never_raises (params : ConstellationSearchInput.t) :
  let results := search_results params CONSTELLATIONS in
  exists response,
    search_constellations params = Some response
    /\ (results = [] -> response = PlainText no_match_text)
    /\ (results <> [] ->
        match ConstellationSearchInput.response_format params with
        | JSON => response = SearchJson results (List.length results)
        | MARKDOWN =>
            exists rest,
              response
              = PlainText ("# Found " ++ str_of_nat (List.length results)
                           ++ " Constellation(s)" ++ rest)%string
        end).
Proof.
  intros results. unfold search_constellations. fold results.
  pose proof (search_results_have_tags params) as Htags. fold results in Htags.
  destruct results as [|r l] eqn:E.
  - eexists. split; [reflexivity|]. split; [reflexivity|congruence].
  - destruct (ConstellationSearchInput.response_format params).
    + unfold format_search_results_markdown.
      destruct (format_search_results_from_Some (r :: l) 1
                  ("# Found " ++ str_of_nat (List.length (r :: l))
                   ++ " Constellation(s)" ++ newline ++ newline)%string
                  Htags) as [rest ->].
      eexists. split; [reflexivity|]. split; [discriminate|].
      intros _. exists (newline ++ newline ++ rest)%string.
      rewrite !append_assoc. reflexivity.
    + eexists. split; [reflexivity|]. split; [discriminate|].
      intros _. reflexivity.
Qed.

(** ** The listing *)

Lemma insert_item_keys {V : Type} (item : string * V) (l : list (string * V)) :
  keys (insert_item item l) = insert_sorted (fst item) (keys l).
Proof.
  unfold keys. induction l as [|h t IH]; simpl; [reflexivity|].
  destruct (String.leb (fst item) (fst h)); simpl; [reflexivity|].
  rewrite IH. reflexivity.
Qed.

Lemma sorted_items_keys {V : Type} (l : list (string * V)) :
  keys (sorted_items l) = sorted (keys l).
Proof.
  induction l as [|h t IH]; [reflexivity|].
  cbn [sorted_items]. rewrite insert_item_keys, IH. reflexivity.
Qed.

Lemma insert_item_Permutation {V : Type}
    (item : string * V) (l : list (string * V)) :
  Permutation (item :: l) (insert_item item l).
Proof.
  induction l as [|h t IH]; simpl.
  - apply Permutation_refl.
  - destruct (String.leb (fst item) (fst h)).
    + apply Permutation_refl.
    + eapply perm_trans; [apply perm_swap|]. apply perm_skip. exact IH.
Qed.

Lemma sorted_items_Permutation {V : Type} (l : list (string * V)) :
  Permutation l (sorted_items l).
Proof.
  induction l as [|h t IH]; simpl.
  - apply perm_nil.
  - eapply perm_trans; [|apply insert_item_Permutation].
    apply perm_skip. exact IH.
Qed.

Lemma fold_left_append_map {A B : Type} (g : A -> B) (l : list A)
    (acc : list B) :
  fold_left (fun acc item => acc ++ [g item]) l acc = acc ++ map g l.
Proof.
  revert acc. induction l as [|a l IH]; intros acc; simpl.
  - rewrite app_nil_r. reflexivity.
  - rewrite IH, <- app_assoc. reflexivity.
Qed.

Lemma format_list_from_blocks (items : list ListItem.t) (md : string) :
  Forall (fun it => ListItem.shape it <> None) items ->
  format_list_from items md
  = Some (md ++ fold_right String.append EmptyString
                  (map listing_block items))%string.
Proof.
  intros H. revert md. induction H as [|it l Hs Hl IH]; intros md.
  - cbn [format_list_from map fold_right]. rewrite append_nil_r. reflexivity.
  - cbn [format_list_from map fold_right]. unfold listing_block at 1.
    destruct (ListItem.shape it) as [sh|]; [|congruence].
    rewrite IH. cbn [get]. f_equal.
    repeat rewrite append_assoc. reflexivity.
Qed.

(** The listing returns every entry of the catalog once, sorted by name,
    with the size of the catalog as total, in both formats without
    raising.  The markdown text is the heading with that total followed by
    one block per entry, in the same order, each showing the name, the
    abbreviation, the theme and the label of the shape tag of its entry.
    The names are the names that the not-found error of the composition
    tool offers, in the same order. *)
Theorem listing_shows_the_whole_catalog_sorted :
  exists items,
    list_all_constellations JSON
    = Some (ListJson items (List.length CONSTELLATIONS))
    /\ list_all_constellations MARKDOWN
       = Some (PlainText (listing_markdown items))
    /\ List.length items = List.length CONSTELLATIONS
    /\ Forall (fun item => ListItem.shape item <> None) items
    /\ map ListItem.name items = sorted (keys CONSTELLATIONS)
    /\ Sorted name_le (map ListItem.name items)
    /\ Permutation
         (map (fun item => list_item (fst item) (snd item)) CONSTELLATIONS)
         items
    /\ forall (P : Platform) (v : string)
              (params : ConstellationCompositionInput) (w : World),
         resolves v = false ->
         constellation_name params = validate_constellation v ->
         fst (generate_constellation_composition params w)
         = Ok (Text (not_found_text v (map ListItem.name items))).
Proof.
  set (items := map (fun item => list_item (fst item) (snd item))
                    (sorted_items CONSTELLATIONS)).
  assert (Hitems : fold_left
                     (fun constellation_list item =>
                        constellation_list ++ [list_item (fst item) (snd item)])
                     (sorted_items CONSTELLATIONS) [] = items).
  { rewrite fold_left_append_map. reflexivity. }
  assert (Hnames : map ListItem.name items = sorted (keys CONSTELLATIONS)).
  { unfold items. rewrite map_map. cbn [list_item ListItem.name].
    rewrite <- sorted_items_keys. reflexivity. }
  assert (Hlen : List.length items = List.length CONSTELLATIONS).
  { unfold items. rewrite length_map.
    symmetry. apply Permutation_length, sorted_items_Permutation. }
  assert (Hshape : Forall (fun it => ListItem.shape it <> None) items).
  { unfold items. apply Forall_map, Forall_forall. intros [name data] Hin.
    cbn [list_item ListItem.shape fst snd].
    apply (Permutation_in _ (Permutation_sym
                               (sorted_items_Permutation CONSTELLATIONS)))
      in Hin.
    pose proof catalog_has_tags as H. rewrite forallb_forall in H.
    specialize (H _ Hin). unfold has_tags in H. cbn [snd] in H.
    destruct (shape data); [discriminate|discriminate]. }
  exists items.
  split; [|split; [|split; [|split; [|split; [|split; [|split]]]]]].
  - unfold list_all_constellations. rewrite Hitems, Hlen. reflexivity.
  - unfold list_all_constellations. rewrite Hitems.
    rewrite (format_list_from_blocks items _ Hshape).
    unfold listing_markdown. repeat rewrite append_assoc. reflexivity.
  - exact Hlen.
  - exact Hshape.
  - exact Hnames.
  - rewrite Hnames. apply sorted_Sorted.
  - unfold items. apply Permutation_map, sorted_items_Permutation.
  - intros P v params w Hv Hname. rewrite Hnames.
    destruct (unresolved_validate v Hv) as [Hval Hlook].
    unfold generate_constellation_composition.
    rewrite Hname, Hval, Hlook. reflexivity.
Qed.

(** Every result of a search carries a name that is a key of the catalog,
    that the validator leaves as it is, and whose entry the result
    describes: it can be handed to the composition tool. *)
Theorem every_search_result_can_be_composed
    (params : ConstellationSearchInput.t) (r : SearchResult.t) :
  In r (search_results params CONSTELLATIONS) ->
  exists metadata,
    lookup (SearchResult.name r) CONSTELLATIONS = Some metadata
    /\ r = search_result (SearchResult.name r) metadata
    /\ validate_constellation (SearchResult.name r) = SearchResult.name r.
Proof.
  intros Hr.
  apply In_search_results in Hr.
  destruct Hr as (name & data & Hin & _ & ->).
  cbn [search_result SearchResult.name]. exists data.
  split; [apply catalog_lookup; exact Hin|]. split; [reflexivity|].
  apply (validate_case_insensitive name name data Hin). left. reflexivity.
Qed.

Lemma every_search_result_can_be_composed_witness :
  exists metadata,
    lookup (SearchResult.name (search_result "Gemini" Gemini)) CONSTELLATIONS
    = Some metadata
    /\ search_result "Gemini" Gemini
       = search_result (SearchResult.name (search_result "Gemini" Gemini))
           metadata
    /\ validate_constellation
         (SearchResult.name (search_result "Gemini" Gemini))
       = SearchResult.name (search_result "Gemini" Gemini).
Proof.
  apply (every_search_result_can_be_composed twin_search).
  vm_compute. left. reflexivity.
Defined.

Lemma between_two_and_seven_points_witness :
  exists points w',
    @generate_focal_points CPython_offline "moderate" "dispersed_cascade"
      (Some 1024%Z) (Some 1024%Z) (fresh_world 0) = (Ok points, w')
    /\ (2 <= List.length points <= 7)%nat
    /\ Forall (fun p => weight p <= 1) points.
Proof.
  exact (@between_two_and_seven_points CPython_offline
           CPython_random_contract "moderate" "dispersed_cascade"
           (Some 1024%Z) (Some 1024%Z) (fresh_world 0)).
Defined.

Lemma scatter_stays_in_its_box_witness :
  exists points w',
    @generate_focal_points CPython_offline "moderate" "dispersed_cascade"
      (Some 1024%Z) (Some 1024%Z) (fresh_world 0) = (Ok points, w')
    /\ List.length points = 6%nat
    /\ Forall (fun p => 0.2 <= x p < 0.8 /\ 0.2 <= y p < 0.8
                        /\ 0.2 <= weight p < 0.4) points.
Proof.
  apply (@scatter_stays_in_its_box CPython_offline CPython_random_contract
           "moderate" "dispersed_cascade").
  vm_compute. reflexivity.
Defined.

Lemma sweep_follows_the_sine_witness :
  @generate_focal_points CPython_offline "very_bright_red" "curved_tail"
    (Some 1024%Z) (Some 1024%Z) (fresh_world 0)
  = (Ok (map sweep_point (range 7)), fresh_world 0)
  /\ Forall (fun p => 0.2 <= x p <= 0.8 /\ 0.5 <= y p <= 0.7)
       (map sweep_point (range 7))
  /\ sweep_point 0 = {| x := 0.2; y := 0.5; weight := 0.4 |}
  /\ sweep_point 3 = {| x := 0.5; y := 0.7; weight := 0.2 |}
  /\ sweep_point 6 = {| x := 0.8; y := 0.5; weight := 0.2 |}.
Proof.
  apply (@sweep_follows_the_sine CPython_offline "very_bright_red"
           "curved_tail").
  vm_compute. reflexivity.
Defined.

Lemma only_the_scatter_can_be_off_centre_witness :
  exists points w',
    @generate_focal_points CPython_offline "very_bright_red" "curved_tail"
      (Some 1024%Z) (Some 1024%Z) (fresh_world 0) = (Ok points, w')
    /\ exists b,
         calculate_balance "curved_tail" points = Ok b
         /\ balance_type b = "centered" /\ stability b = "high".
Proof.
  apply (@only_the_scatter_can_be_off_centre CPython_offline
           "very_bright_red" "curved_tail" "curved_tail").
  vm_compute. reflexivity.
Defined.

Lemma centre_of_mass_is_on_the_canvas_witness :
  exists c w',
    @map_constellation_to_composition CPython_offline "Cygnus" Cygnus None
      (Some 1024%Z) (Some 1024%Z) true (fresh_world 0) = (Ok c, w')
    /\ fst (@generate_focal_points CPython_offline
              (get (brightness_profile Cygnus) "moderate")
              (get (shape Cygnus) "dispersed")
              (Some 1024%Z) (Some 1024%Z) (fresh_world 0))
       = Ok (focal_points c)
    /\ focal_points c <> []
    /\ 0 <= fst (center_of_mass (balance c)) <= 1
    /\ 0 <= snd (center_of_mass (balance c)) <= 1.
Proof.
  exact (@centre_of_mass_is_on_the_canvas CPython_offline
           CPython_random_contract "Cygnus" Cygnus None
           (Some 1024%Z) (Some 1024%Z) true (fresh_world 0)).
Defined.

Lemma mythology_flag_changes_only_the_themes_witness :
  exists c w1' w2',
    @map_constellation_to_composition CPython_offline "Leo" Leo None
      (Some 1024%Z) (Some 1024%Z) true (fresh_world 0) = (Ok c, w1')
    /\ @map_constellation_to_composition CPython_offline "Leo" Leo None
         (Some 1024%Z) (Some 1024%Z) false (fresh_world 1)
       = (Ok {| focal_points := focal_points c;
                visual_flow := visual_flow c;
                balance := balance c;
                spatial_distribution := spatial_distribution c;
                mythology_themes := [];
                suggested_elements := suggested_elements c |}, w2')
    /\ mythology_themes c = extract_mythology_themes Leo.
Proof.
  exact (@mythology_flag_changes_only_the_themes CPython_offline
           CPython_random_contract "Leo" Leo None
           (Some 1024%Z) (Some 1024%Z) (fresh_world 0) (fresh_world 1)).
Defined.


Lemma composition_tool_never_raises_witness :
  exists response w',
    @generate_constellation_composition CPython_offline lyra_input
      (fresh_world 0) = (Ok response, w')
    /\ (lookup (constellation_name lyra_input) CONSTELLATIONS = None ->
        response
        = Text (not_found_text (constellation_name lyra_input)
                  (sorted (keys CONSTELLATIONS))))
    /\ (forall metadata,
          lookup (constellation_name lyra_input) CONSTELLATIONS
          = Some metadata ->
          exists c,
            response = document lyra_input metadata c
            /\ fst (@map_constellation_to_composition CPython_offline
                      (constellation_name lyra_input) metadata None
                      (canvas_width lyra_input) (canvas_height lyra_input)
                      (include_mythology lyra_input) (fresh_world 0)) = Ok c).
Proof.
  exact (@composition_tool_never_raises CPython_offline
           CPython_random_contract lyra_input (fresh_world 0)).
Defined.

Lemma any_resolving_input_is_answered_witness :
  exists metadata c w',
    lookup (validate_constellation "lyr") CONSTELLATIONS = Some metadata
    /\ (str_lower "lyr" = str_lower (validate_constellation "lyr")
        \/ str_lower "lyr" = str_lower (abbr metadata))
    /\ @generate_constellation_composition CPython_offline lyra_input
         (fresh_world 0) = (Ok (document lyra_input metadata c), w').
Proof.
  apply (@any_resolving_input_is_answered CPython_offline
           CPython_random_contract "lyr" lyra_input (fresh_world 0)).
  - vm_compute. reflexivity.
  - vm_compute. reflexivity.
Defined.

Lemma any_letter_case_resolves_witness :
  validate_constellation "uMa" = "Ursa Major"
  /\ lookup (validate_constellation "uMa") CONSTELLATIONS = Some Ursa_Major.
Proof.
  apply any_letter_case_resolves.
  - simpl. do 19 right. left. reflexivity.
  - right. vm_compute. reflexivity.
Defined.


Lemma search_ignores_letter_case_witness :
  search_constellations twin_search = search_constellations TWIN_search.
Proof.
  apply search_ignores_letter_case; vm_compute; reflexivity.
Defined.

Lemma empty_criteria_return_the_catalog_witness :
  search_results blank_search CONSTELLATIONS
  = map (fun item => search_result (fst item) (snd item)) CONSTELLATIONS
  /\ List.length (search_results blank_search CONSTELLATIONS) = 22%nat.
Proof.
  apply empty_criteria_return_the_catalog; reflexivity.
Defined.

Lemma a_catalog_name_finds_its_entry_witness :
  In (search_result "Canis Major" Canis_Major)
     (search_results
        {| ConstellationSearchInput.query := Some "CANIS major";
           ConstellationSearchInput.shape_type := None;
           ConstellationSearchInput.brightness := None;
           ConstellationSearchInput.response_format := JSON |}
        CONSTELLATIONS).
Proof.
  apply a_catalog_name_finds_its_entry.
  - simpl. do 5 right. left. reflexivity.
  - vm_compute. reflexivity.
Defined.
